(** * A freestanding system-call layer for Linux x86-64, and its examples

    Shallow embedding of the six example programs under [examples/]:
    the C functions become functions in a small outcome monad over the
    process's world, the inline assembly blocks become lists of
    instructions run on a partial register file, and the operating system
    behind the [syscall] instruction is a separate model. *)

From Stdlib Require Import ZArith List Lia Bool.
From Stdlib Require Import Strings.Byte.
Import ListNotations.
Local Open Scope Z_scope.

(** ** Machine integers

    C values are mathematical integers of type [Z]; the width of the C type
    or of the register that receives a value is written out as a wrap. *)

Module Word.

(** The [bits]-bit pattern of [v] (an unsigned value below [2 ^ bits]). *)
Definition wrap (bits v : Z) : Z := v mod 2 ^ bits.

(** The two's complement reading of the low [bits] bits of [v]. *)
Definition signed (bits v : Z) : Z :=
  let u := wrap bits v in
  if u <? 2 ^ (bits - 1) then u else u - 2 ^ bits.

Definition qword : Z -> Z := wrap 64.
Definition dword : Z -> Z := wrap 32.

(** Conversions to [long], [int] and [unsigned long] (gcc, x86-64). *)
Definition to_long : Z -> Z := signed 64.
Definition to_int : Z -> Z := signed 32.
Definition to_ulong : Z -> Z := wrap 64.

Definition INT_MIN : Z := - 2 ^ 31.
Definition INT_MAX : Z := 2 ^ 31 - 1.

Definition is_int (v : Z) : bool := (INT_MIN <=? v) && (v <=? INT_MAX).

End Word.

Import Word.

(** ** The world of a process *)

(** An output stream owned by the operating system: the bytes that became
    visible on it so far, and how many more bytes it accepts. *)
Record stream : Type := mkStream {
  visible : list byte;
  room : Z
}.

(** What the kernel was asked, with the arguments as it decodes them. *)
Inductive event : Type :=
| ev_write (fd buf count ret : Z)
| ev_exit (code : Z)
| ev_other (nr a0 a1 a2 ret : Z).

Record world : Type := mkWorld {
  mem : Z -> option byte;        (* readable bytes of the address space *)
  files : Z -> option stream;    (* open stream handles *)
  log : list event;              (* requests served so far *)
  answers : Z -> Z -> Z -> Z -> Z
    (* the result word of an operation other than write and exit *)
}.

(** Reading one byte; [None] outside the 64-bit address space or where
    nothing readable is mapped. *)
Definition load (w : world) (a : Z) : option byte :=
  if (0 <=? a) && (a <? 2 ^ 64) then mem w a else None.

(** ** Outcomes and the monad of C functions *)

Inductive outcome (A : Type) : Type :=
| Returns (a : A) (w : world)     (* control is back at the caller *)
| Exits (status : Z) (w : world)  (* the process is gone *)
| Undefined                       (* undefined behaviour *)
| OutOfFuel.                      (* the loop budget of the model ran out *)

Arguments Returns {A} a w.
Arguments Exits {A} status w.
Arguments Undefined {A}.
Arguments OutOfFuel {A}.

Definition M (A : Type) : Type := world -> outcome A.

Definition ret {A : Type} (a : A) : M A := fun w => Returns a w.

Definition bind {A B : Type} (m : M A) (k : A -> M B) : M B :=
  fun w =>
    match m w with
    | Returns a w' => k a w'
    | Exits status w' => Exits status w'
    | Undefined => Undefined
    | OutOfFuel => OutOfFuel
    end.

Notation "x <- m ;; k" := (bind m (fun x => k))
  (at level 61, m at next level, right associativity).
Notation "m ;;; k" := (bind m (fun _ => k))
  (at level 61, right associativity).

Definition undefined {A : Type} : M A := fun _ => Undefined.

(** [__builtin_unreachable()]: reaching it is undefined behaviour. *)
Definition builtin_unreachable {A : Type} : M A := undefined.

(** [*p] for a [const char *p]. *)
Definition deref (p : Z) : M byte :=
  fun w => match load w p with
           | Some b => Returns b w
           | None => Undefined
           end.

Definition nonzero (b : byte) : bool := negb (Byte.eqb b x00).

(** [while (cond) body] on a loop state, with a budget of iterations. *)
Fixpoint while {S : Type} (fuel : nat) (cond : S -> M bool) (body : S -> M S)
  (s : S) : M S :=
  match fuel with
  | O => fun _ => OutOfFuel
  | Datatypes.S fuel' =>
      c <- cond s ;;
      if c then (s' <- body s ;; while fuel' cond body s') else ret s
  end.

(** [int] arithmetic: overflow is undefined behaviour; [%] truncates
    towards zero. *)
Definition int_add (a b : Z) : M Z :=
  if is_int (a + b) then ret (a + b) else undefined.

Definition int_rem (a b : Z) : M Z :=
  if (b =? 0) || ((a =? INT_MIN) && (b =? -1)) then undefined
  else ret (Z.rem a b).

(** ** Inline assembly *)

Module X86.

Inductive reg : Type :=
| RAX | RDI | RSI | RDX | RCX | R11
| Op (n : nat).                  (* the register gcc picks for operand %n *)

Abbreviation EAX := RAX (only parsing).
Abbreviation EDI := RDI (only parsing).
Abbreviation EDX := RDX (only parsing).

Definition reg_eqb (x y : reg) : bool :=
  match x, y with
  | RAX, RAX | RDI, RDI | RSI, RSI | RDX, RDX | RCX, RCX | R11, R11 => true
  | Op n, Op m => Nat.eqb n m
  | _, _ => false
  end.

(** A register holds a 64-bit pattern, or nothing this code can rely on. *)
Definition regfile : Type := reg -> option Z.

Definition indeterminate : regfile := fun _ => None.

Definition set (x : reg) (v : option Z) (rf : regfile) : regfile :=
  fun y => if reg_eqb x y then v else rf y.

Inductive src : Type :=
| Imm (v : Z)
| Reg (x : reg).

Definition read (s : src) (rf : regfile) : option Z :=
  match s with
  | Imm v => Some v
  | Reg x => rf x
  end.

Inductive insn : Type :=
| MOV (s : src) (d : reg)        (* mov with a 64-bit destination *)
| MOVQ (s : src) (d : reg)
| MOVL (s : src) (d : reg)       (* writes the low half, clears the high half *)
| SYSCALL.

End X86.

Import X86.

(** ** The operating system

    The kernel behind the [syscall] instruction is not part of the
    repository.  The definitions of this module follow what the spec says
    of the platform: one operation code for "write" and one for "exit", the
    result convention, the effect of a write on its target stream, the end
    of the process on exit. *)

Module Kernel.

Definition NR_write : Z := 1.
Definition NR_exit : Z := 60.

Definition EBADF : Z := 9.
Definition EFAULT : Z := 14.
Definition ENOSPC : Z := 28.
Definition MAX_ERRNO : Z := 4095.

Inductive kresult : Type :=
| Resumed (rf : regfile) (w : world)
| Terminated (status : Z) (w : world)
| Unspecified.

Fixpoint read_bytes (w : world) (a : Z) (n : nat) : option (list byte) :=
  match n with
  | O => Some []
  | S n' =>
      match load w a, read_bytes w (a + 1) n' with
      | Some b, Some bs => Some (b :: bs)
      | _, _ => None
      end
  end.

(** Modelled from the spec: a request may transfer fewer bytes than asked
    for.  One request moves at most this many bytes (the platform's limit),
    which keeps a transferred count apart from the negated error codes. *)
Definition MAX_RW_COUNT : Z := 2147479552.

(** How many of [count] bytes the stream takes in this request. *)
Definition accepted (st : stream) (count : Z) : Z :=
  Z.min count (Z.min MAX_RW_COUNT (Z.max 0 (room st))).

Definition append (fd : Z) (st : stream) (bs : list byte) (n : Z)
  (fs : Z -> option stream) : Z -> option stream :=
  fun fd' =>
    if fd' =? fd
    then Some (mkStream (visible st ++ bs) (room st - n))
    else fs fd'.

(** Modelled from the spec: the kernel's write request, which is not in
    the repository.  A negative result is a negated error code and nothing
    is transferred; a non-negative result is the number of bytes
    transferred, which may be fewer than [count]; the transferred bytes
    become visible on the target stream.  Result and stream table
    afterwards. *)
Definition transfer (fd buf count : Z) (w : world)
  : Z * (Z -> option stream) :=
  match files w fd with
  | None => (- EBADF, files w)
  | Some st =>
      let n := accepted st count in
      if (n =? 0) && (0 <? count) then (- ENOSPC, files w)
      else
        match read_bytes w buf (Z.to_nat n) with
        | None => (- EFAULT, files w)
        | Some bs => (n, append fd st bs n (files w))
        end
  end.

(** Modelled from the spec: the write request as the kernel serves and
    logs it; process memory is only read. *)
Definition sys_write (fd buf count : Z) (w : world) : Z * world :=
  let t := transfer fd buf count w in
  (fst t, mkWorld (mem w) (snd t) (log w ++ [ev_write fd buf count (fst t)])
                  (answers w)).

(** Modelled from the spec: the kernel's exit request, which is not in
    the repository.  The process is destroyed and the environment keeps the
    low 8 bits of the status.  Observed status and final world. *)
Definition sys_exit (code : Z) (w : world) : Z * world :=
  (code mod 256,
   mkWorld (mem w) (files w) (log w ++ [ev_exit code]) (answers w)).

(** Modelled from the spec: a kernel operation other than the two the
    repository uses, which is not in the repository.  The trampoline takes
    any operation code; the kernel comes back with one result word, whose
    meaning is specific to the request, and which the environment decides.
    Result and world afterwards. *)
Definition sys_other (nr a0 a1 a2 : Z) (w : world) : Z * world :=
  (answers w nr a0 a1 a2,
   mkWorld (mem w) (files w)
           (log w ++ [ev_other nr a0 a1 a2 (answers w nr a0 a1 a2)])
           (answers w)).

(** Return to user mode: the result is in rax, rcx and r11 are lost. *)
Definition sysret (r : Z) (rf : regfile) : regfile :=
  fun x =>
    match x with
    | RAX => Some (qword r)
    | RCX | R11 => None
    | _ => rf x
    end.

(** Modelled from the spec: the system-call entry, which is not in the
    repository.  The operation code is in rax and the arguments are in rdi,
    rsi and rdx; the stream handle and the exit status are 32-bit values.
    Every operation code is served; a request that reads a register the
    code did not set is undefined behaviour. *)
Definition entry (rf : regfile) (w : world) : kresult :=
  match rf RAX with
  | None => Unspecified
  | Some nr =>
      if nr =? NR_write then
        match rf RDI, rf RSI, rf RDX with
        | Some a0, Some a1, Some a2 =>
            let res := sys_write (dword a0) a1 a2 w in
            Resumed (sysret (fst res) rf) (snd res)
        | _, _, _ => Unspecified
        end
      else if nr =? NR_exit then
        match rf RDI with
        | Some a0 =>
            let res := sys_exit (to_int a0) w in
            Terminated (fst res) (snd res)
        | None => Unspecified
        end
      else
        match rf RDI, rf RSI, rf RDX with
        | Some a0, Some a1, Some a2 =>
            let res := sys_other nr a0 a1 a2 w in
            Resumed (sysret (fst res) rf) (snd res)
        | _, _, _ => Unspecified
        end
  end.

End Kernel.

(** ** Running an assembly block *)

Definition mov_to (bits : Z) (s : src) (d : reg) (rf : regfile) : regfile :=
  set d (option_map (wrap bits) (read s rf)) rf.

Fixpoint run (code : list insn) (rf : regfile) (w : world)
  : outcome regfile :=
  match code with
  | [] => Returns rf w
  | MOV s d :: rest => run rest (mov_to 64 s d rf) w
  | MOVQ s d :: rest => run rest (mov_to 64 s d rf) w
  | MOVL s d :: rest => run rest (mov_to 32 s d rf) w
  | SYSCALL :: rest =>
      match Kernel.entry rf w with
      | Kernel.Resumed rf' w' => run rest rf' w'
      | Kernel.Terminated status w' => Exits status w'
      | Kernel.Unspecified => Undefined
      end
  end.

(** [__asm__ volatile (template : outputs : inputs : clobbers)]: the
    compiler loads the input operands into their registers, every other
    register is indeterminate, then the template runs. *)
Definition asm_volatile (inputs : list (reg * Z)) (template : list insn)
  : M regfile :=
  run template
      (fold_right (fun xv rf => set (fst xv) (Some (snd xv)) rf)
                  indeterminate inputs).

(** An output operand of type [long], respectively [int]. *)
Definition output_long (rf : regfile) (x : reg) : M Z :=
  match rf x with
  | Some v => ret (to_long v)
  | None => undefined
  end.

Definition output_int (rf : regfile) (x : reg) : M Z :=
  match rf x with
  | Some v => ret (to_int v)
  | None => undefined
  end.

(** The 13 bytes of the example string: Hello World! and a newline. *)
Definition hello : list byte :=
  [x48; x65; x6c; x6c; x6f; x20; x57; x6f; x72; x6c; x64; x21; x0a].

(** ** examples/hello_world.c *)

Module hello_world.

Definition SYS_WRITE : Z := 1.
Definition SYS_EXIT : Z := 60.
Definition STDOUT_FILENO : Z := 1.

(** [long syscall(long number, long arg1, long arg2, long arg3)] *)
Definition syscall (number arg1 arg2 arg3 : Z) : M Z :=
  rf <- asm_volatile
          [(RAX, qword number); (RDI, qword arg1);
           (RSI, qword arg2); (RDX, qword arg3)]
          [SYSCALL] ;;
  output_long rf RAX.

(** [long write(int fd, const char *buf, unsigned long count)] *)
Definition write (fd buf count : Z) : M Z :=
  syscall SYS_WRITE fd buf (to_long count).

(** [void exit(int status)] *)
Definition exit (status : Z) : M unit :=
  syscall SYS_EXIT status 0 0 ;;;
  builtin_unreachable.

(** [unsigned long strlen(const char *s)] *)
Definition strlen (fuel : nat) (s : Z) : M Z :=
  while fuel
        (fun len => c <- deref (s + len) ;; ret (nonzero c))
        (fun len => ret (to_ulong (len + 1)))
        0.

(** [void print(const char *str)] *)
Definition print (fuel : nat) (str : Z) : M unit :=
  len <- strlen fuel str ;;
  write STDOUT_FILENO str len ;;;
  ret tt.

Section Image.

(** Where the linker put the string literal. *)
Variable literal : Z.

Definition main (fuel : nat) : M Z :=
  print fuel literal ;;;
  exit 0 ;;;
  ret 0.

End Image.

End hello_world.

(** ** examples/inline_hello.c *)

Module inline_hello.

Section Image.

(** The address of the label [hello_msg] inside the block. *)
Variable hello_msg : Z.

Definition main : M Z :=
  asm_volatile []
    [MOV (Imm 1) RAX;
     MOV (Imm 1) RDI;
     MOV (Imm hello_msg) RSI;
     MOV (Imm 13) RDX;
     SYSCALL;
     MOV (Imm 60) RAX;
     MOV (Imm 0) RDI;
     SYSCALL] ;;;
  ret 0.

End Image.

End inline_hello.

(** ** examples/printf_stub.c *)

Module printf_stub.

Definition SYS_WRITE : Z := 1.

(** [static long sys_write(int fd, const void *buf, unsigned long count)] *)
Definition sys_write (fd buf count : Z) : M Z :=
  rf <- asm_volatile
          [(RAX, dword SYS_WRITE); (RDI, dword fd);
           (RSI, qword buf); (RDX, qword count)]
          [SYSCALL] ;;
  output_long rf RAX.

(** [static unsigned long my_strlen(const char *s)] *)
Definition my_strlen (fuel : nat) (s : Z) : M Z :=
  while fuel
        (fun len => c <- deref (s + len) ;; ret (nonzero c))
        (fun len => ret (to_ulong (len + 1)))
        0.

(** [int printf(const char *format, ...)]; [va] are the variadic
    arguments, which the body never reads. *)
Definition printf (fuel : nat) (format : Z) (va : list Z) : M Z :=
  count <- my_strlen fuel format ;;
  sys_write 1 format count ;;;
  len <- my_strlen fuel format ;;
  ret (to_int len).

End printf_stub.

(** ** examples/simple_exit.c *)

Module simple_exit.

Definition SYS_EXIT : Z := 60.

(** [void exit(int status)] *)
Definition exit (status : Z) : M unit :=
  asm_volatile [(Op 0, dword status)]
    [MOVL (Reg (Op 0)) EDI;
     MOVL (Imm 60) EAX;
     SYSCALL] ;;;
  builtin_unreachable.

Definition main : M Z :=
  exit 42 ;;;
  ret 0.

End simple_exit.

(** ** examples/simple_test.c *)

Module simple_test.

Definition global_number : Z := 100.

(** [int add_two_numbers(int a, int b)] *)
Definition add_two_numbers (a b : Z) : M Z := int_add a b.

Definition main : M Z :=
  result <- add_two_numbers global_number 42 ;;
  int_rem result 256.

End simple_test.

(** ** examples/working_hello.c *)

Module working_hello.

(** [int write_syscall(int fd, const char *buf, int count)] *)
Definition write_syscall (fd buf count : Z) : M Z :=
  rf <- asm_volatile
          [(Op 1, dword fd); (Op 2, qword buf); (Op 3, dword count)]
          [MOVL (Imm 1) EAX;
           MOVL (Reg (Op 1)) EDI;
           MOVQ (Reg (Op 2)) RSI;
           MOVL (Reg (Op 3)) EDX;
           SYSCALL;
           MOVL (Reg EAX) (Op 0)] ;;
  output_int rf (Op 0).

(** [void exit_syscall(int code)] *)
Definition exit_syscall (code : Z) : M unit :=
  asm_volatile [(Op 0, dword code)]
    [MOVL (Imm 60) EAX;
     MOVL (Reg (Op 0)) EDI;
     SYSCALL] ;;;
  ret tt.

Section Image.

(** The address of [const char hello_msg[]]. *)
Variable hello_msg : Z.

Definition main : M Z :=
  write_syscall 1 hello_msg 13 ;;;
  exit_syscall 0 ;;;
  ret 0.

End Image.

End working_hello.

(** ** Program start *)

(** Modelled from the spec: the start-up glue that calls [main], which is
    not among the example sources.  The spec's end-to-end scenarios have a
    program "terminate with" the value it computed: the value [main] returns
    is handed to the kernel's exit request. *)
Definition start (main : M Z) : M unit :=
  code <- main ;;
  asm_volatile [(RDI, dword code)] [MOVL (Imm 60) EAX; SYSCALL] ;;;
  builtin_unreachable.

(** ** Predicates on the world *)

(** The bytes [bs] are readable from address [a] on. *)
Fixpoint holds (w : world) (a : Z) (bs : list byte) : Prop :=
  match bs with
  | [] => True
  | b :: bs' => load w a = Some b /\ holds w (a + 1) bs'
  end.

(** A null-terminated sequence with contents [bs] starts at [s]. *)
Definition c_string (w : world) (s : Z) (bs : list byte) : Prop :=
  holds w s (bs ++ [x00]) /\ forallb nonzero bs = true.

(** The first zero byte of the sequence at [s] is at index [L]. *)
Definition first_zero_at (w : world) (s L : Z) : Prop :=
  0 <= L /\
  (forall i, 0 <= i < L -> exists b, load w (s + i) = Some b /\ b <> x00) /\
  load w (s + L) = Some x00.

(** What is visible on standard output. *)
Definition stdout (w : world) : option (list byte) :=
  option_map visible (files w 1).

(** The stream takes all [n] bytes of one request. *)
Definition takes (st : stream) (n : Z) : Prop := Kernel.accepted st n = n.

(** ** Example worlds *)

(** Memory holding [bs] from address [a] on, and nothing else. *)
Definition image (a : Z) (bs : list byte) : Z -> option byte :=
  fun x => if (a <=? x) && (x <? a + Z.of_nat (List.length bs))
           then nth_error bs (Z.to_nat (x - a)) else None.

(** Memory that is [n] bytes 'a' from address [a] on, then a zero byte. *)
Definition filled (a n : Z) : Z -> option byte :=
  fun x => if (a <=? x) && (x <? a + n) then Some x61
           else if x =? a + n then Some x00 else None.

(** A capture of standard output that takes [n] more bytes. *)
Definition capture (n : Z) : Z -> option stream :=
  fun fd => if fd =? 1 then Some (mkStream [] n) else None.

(** No stream is open. *)
Definition closed : Z -> option stream := fun _ => None.

(** A kernel that implements no operation beyond write and exit. *)
Definition unimplemented : Z -> Z -> Z -> Z -> Z := fun _ _ _ _ => - 38.

(** The example string loaded at 4096, standard output captured. *)
Definition boot : world :=
  mkWorld (image 4096 (hello ++ [x00])) (capture 4096) [] unimplemented.

(** The format string "%d\n" loaded at 4096, standard output captured. *)
Definition placeholder : world :=
  mkWorld (image 4096 [x25; x64; x0a; x00]) (capture 4096) [] unimplemented.

(** The example string again, with a standard output that takes 5 bytes
    and with none at all. *)
Definition short_capture : world :=
  mkWorld (image 4096 (hello ++ [x00])) (capture 5) [] unimplemented.

Definition no_stdout : world :=
  mkWorld (image 4096 (hello ++ [x00])) closed [] unimplemented.

(** A format string of [2 ^ 31] bytes at 4096, and a budget that covers it. *)
Definition long_format : world :=
  mkWorld (filled 4096 (2 ^ 31)) closed [] unimplemented.

Definition long_fuel : nat := Z.to_nat (2 ^ 31 + 1).

(** The 13 bytes of the example string at 4096 with nothing after them,
    as [.ascii] lays them out; standard output captured. *)
Definition ascii_only : world :=
  mkWorld (image 4096 hello) (capture 4096) [] unimplemented.

(** The format string of [2 ^ 31] bytes again, with a standard output that
    has room for [2 ^ 32] bytes. *)
Definition long_roomy : world :=
  mkWorld (filled 4096 (2 ^ 31)) (capture (2 ^ 32)) [] unimplemented.

(** Two bytes 'a' 'b' at 4096 with no terminator: the next address is not
    mapped. *)
Definition unterminated : world :=
  mkWorld (image 4096 [x61; x62]) closed [] unimplemented.

(** * Properties *)

(** ** Machine integers *)

Lemma wrap_range (bits v : Z) : 0 <= bits -> 0 <= wrap bits v < 2 ^ bits.
Proof.
  intros Hb. unfold wrap. apply Z.mod_pos_bound. apply Z.pow_pos_nonneg; lia.
Qed.

Lemma wrap_small (bits v : Z) : 0 <= v < 2 ^ bits -> wrap bits v = v.
Proof. intros H. unfold wrap. apply Z.mod_small. exact H. Qed.

Lemma wrap_wrap (n m v : Z) :
  0 <= n <= m -> wrap n (wrap m v) = wrap n v.
Proof.
  intros H. unfold wrap.
  replace m with (n + (m - n)) by lia.
  rewrite Z.pow_add_r by lia.
  rewrite Z.rem_mul_r by (try apply Z.pow_nonzero; try apply Z.pow_pos_nonneg; lia).
  rewrite (Z.mul_comm (2 ^ n)), Z.mod_add by (apply Z.pow_nonzero; lia).
  apply Zmod_mod.
Qed.

Lemma wrap_signed (bits v : Z) : 0 < bits -> wrap bits (signed bits v) = wrap bits v.
Proof.
  intros Hb. unfold signed. cbv zeta.
  destruct (Z.ltb_spec (wrap bits v) (2 ^ (bits - 1))).
  - apply wrap_wrap. lia.
  - unfold wrap.
    replace (v mod 2 ^ bits - 2 ^ bits) with (v mod 2 ^ bits + (-1) * 2 ^ bits) by lia.
    rewrite Z.mod_add by (apply Z.pow_nonzero; lia).
    apply Zmod_mod.
Qed.

Lemma signed_small (bits v : Z) :
  0 < bits -> - 2 ^ (bits - 1) <= v < 2 ^ (bits - 1) ->
  signed bits (wrap bits v) = v.
Proof.
  intros Hb Hv.
  assert (E : 2 ^ bits = 2 * 2 ^ (bits - 1)).
  { replace bits with (1 + (bits - 1)) at 1 by lia.
    rewrite Z.pow_add_r by lia. reflexivity. }
  unfold signed. cbv zeta. rewrite wrap_wrap by lia.
  destruct (Z.le_gt_cases 0 v) as [Hpos | Hneg].
  - rewrite wrap_small by lia.
    destruct (Z.ltb_spec v (2 ^ (bits - 1))); lia.
  - assert (Ew : wrap bits v = v + 2 ^ bits).
    { unfold wrap. symmetry. apply Z.mod_unique with (q := -1); lia. }
    rewrite Ew.
    destruct (Z.ltb_spec (v + 2 ^ bits) (2 ^ (bits - 1))); lia.
Qed.

Lemma is_int_range (v : Z) : is_int v = true <-> - 2 ^ 31 <= v < 2 ^ 31.
Proof.
  unfold is_int, INT_MIN, INT_MAX. rewrite andb_true_iff, Z.leb_le, Z.leb_le. lia.
Qed.

Lemma signed_wrap (n m v : Z) :
  0 <= n <= m -> signed n (wrap m v) = signed n v.
Proof. intros H. unfold signed. rewrite wrap_wrap by exact H. reflexivity. Qed.

Lemma signed_id (bits v : Z) :
  0 < bits -> - 2 ^ (bits - 1) <= v < 2 ^ (bits - 1) -> signed bits v = v.
Proof.
  intros Hb Hv. rewrite <- (signed_wrap bits bits v) by lia.
  apply signed_small; assumption.
Qed.

Lemma to_int_qword (s : Z) : is_int s = true -> to_int (qword s) = s.
Proof.
  intros H. apply is_int_range in H. unfold to_int, qword.
  rewrite signed_wrap by lia. apply signed_id; simpl; lia.
Qed.

Lemma to_int_dword (s : Z) : is_int s = true -> to_int (dword s) = s.
Proof.
  intros H. apply is_int_range in H. unfold to_int, dword.
  rewrite signed_wrap by lia. apply signed_id; simpl; lia.
Qed.

(** ** What the trap does for the two requests *)

Lemma syscall_write (a1 a2 a3 : Z) (w : world) :
  hello_world.syscall 1 a1 a2 a3 w =
  Returns
    (to_long (qword (fst (Kernel.sys_write (dword (qword a1)) (qword a2) (qword a3) w))))
    (snd (Kernel.sys_write (dword (qword a1)) (qword a2) (qword a3) w)).
Proof. reflexivity. Qed.


Lemma sys_write_trap (fd buf count : Z) (w : world) :
  printf_stub.sys_write fd buf count w =
  Returns
    (to_long (qword (fst (Kernel.sys_write (dword (dword fd)) (qword buf) (qword count) w))))
    (snd (Kernel.sys_write (dword (dword fd)) (qword buf) (qword count) w)).
Proof. reflexivity. Qed.

Lemma write_syscall_trap (fd buf count : Z) (w : world) :
  working_hello.write_syscall fd buf count w =
  Returns
    (to_int (dword (qword (fst (Kernel.sys_write (dword (dword (dword fd)))
                                  (qword (qword buf)) (dword (dword count)) w)))))
    (snd (Kernel.sys_write (dword (dword (dword fd)))
            (qword (qword buf)) (dword (dword count)) w)).
Proof. reflexivity. Qed.

Lemma hello_exit_trap (status : Z) (w : world) :
  hello_world.exit status w =
  Exits (to_int (qword status) mod 256)
        (snd (Kernel.sys_exit (to_int (qword status)) w)).
Proof. reflexivity. Qed.

Lemma simple_exit_trap (status : Z) (w : world) :
  simple_exit.exit status w =
  Exits (to_int (dword (dword status)) mod 256)
        (snd (Kernel.sys_exit (to_int (dword (dword status))) w)).
Proof. reflexivity. Qed.

Lemma exit_syscall_trap (code : Z) (w : world) :
  working_hello.exit_syscall code w =
  Exits (to_int (dword (dword code)) mod 256)
        (snd (Kernel.sys_exit (to_int (dword (dword code))) w)).
Proof. reflexivity. Qed.

(** ** The kernel's write request *)

Lemma sys_write_mem (fd buf count : Z) (w : world) :
  mem (snd (Kernel.sys_write fd buf count w)) = mem w.
Proof. reflexivity. Qed.

Lemma accepted_bounds (st : stream) (count : Z) :
  0 <= count ->
  0 <= Kernel.accepted st count <= count /\
  Kernel.accepted st count <= Kernel.MAX_RW_COUNT.
Proof. unfold Kernel.accepted, Kernel.MAX_RW_COUNT. lia. Qed.

Lemma transfer_cases (fd buf count : Z) (w : world) :
  0 <= count ->
  (- Kernel.MAX_ERRNO <= fst (Kernel.transfer fd buf count w) < 0 /\
   snd (Kernel.transfer fd buf count w) = files w) \/
  (exists st bs,
      files w fd = Some st /\
      0 <= fst (Kernel.transfer fd buf count w) <= count /\
      fst (Kernel.transfer fd buf count w) <= Kernel.MAX_RW_COUNT /\
      Kernel.read_bytes w buf (Z.to_nat (fst (Kernel.transfer fd buf count w)))
        = Some bs /\
      snd (Kernel.transfer fd buf count w)
        = Kernel.append fd st bs (fst (Kernel.transfer fd buf count w)) (files w)).
Proof.
  intros Hc. unfold Kernel.transfer.
  destruct (files w fd) as [st |] eqn:Efd.
  - pose proof (accepted_bounds st count Hc) as [Hn Hmax].
    destruct ((Kernel.accepted st count =? 0) && (0 <? count)) eqn:Efull.
    + left. simpl. unfold Kernel.MAX_ERRNO, Kernel.ENOSPC. split; [lia | reflexivity].
    + destruct (Kernel.read_bytes w buf (Z.to_nat (Kernel.accepted st count)))
        as [bs |] eqn:Erd.
      * right. exists st, bs. simpl. rewrite Erd. repeat split; try lia.
      * left. simpl. unfold Kernel.MAX_ERRNO, Kernel.EFAULT. split; [lia | reflexivity].
  - left. simpl. unfold Kernel.MAX_ERRNO, Kernel.EBADF. split; [lia | reflexivity].
Qed.

Lemma read_bytes_holds (w : world) (bs : list byte) (a : Z) :
  holds w a bs -> Kernel.read_bytes w a (List.length bs) = Some bs.
Proof.
  revert a. induction bs as [| b bs IH]; intros a H; simpl in *.
  - reflexivity.
  - destruct H as [Hb Hrest]. rewrite Hb, (IH _ Hrest). reflexivity.
Qed.

Lemma holds_app (w : world) (bs cs : list byte) (a : Z) :
  holds w a (bs ++ cs) <->
  holds w a bs /\ holds w (a + Z.of_nat (List.length bs)) cs.
Proof.
  revert a. induction bs as [| b bs IH]; intros a.
  - simpl. rewrite Z.add_0_r. tauto.
  - cbn [app holds List.length]. rewrite IH.
    replace (a + 1 + Z.of_nat (List.length bs))
      with (a + Z.of_nat (S (List.length bs))) by lia.
    tauto.
Qed.

Lemma transfer_full (fd buf : Z) (bs : list byte) (st : stream) (w : world) :
  files w fd = Some st ->
  takes st (Z.of_nat (List.length bs)) ->
  holds w buf bs ->
  Kernel.transfer fd buf (Z.of_nat (List.length bs)) w =
  (Z.of_nat (List.length bs),
   Kernel.append fd st bs (Z.of_nat (List.length bs)) (files w)).
Proof.
  intros Hfd Htakes Hbs. unfold Kernel.transfer, takes in *.
  rewrite Hfd, Htakes.
  destruct (Z.eqb_spec (Z.of_nat (List.length bs)) 0) as [E0 | E0].
  - replace (0 <? Z.of_nat (List.length bs)) with false
      by (symmetry; apply Z.ltb_ge; lia).
    cbn [andb]. rewrite Nat2Z.id, (read_bytes_holds _ _ _ Hbs). reflexivity.
  - cbn [andb]. rewrite Nat2Z.id, (read_bytes_holds _ _ _ Hbs). reflexivity.
Qed.

(** ** The scanning loop *)

Lemma load_same_mem (w w' : world) (a : Z) :
  mem w' = mem w -> load w' a = load w a.
Proof. intros E. unfold load. rewrite E. reflexivity. Qed.

Lemma first_zero_same_mem (w w' : world) (s L : Z) :
  mem w' = mem w -> first_zero_at w s L -> first_zero_at w' s L.
Proof.
  intros E (HL & Hpre & Hend). repeat split.
  - exact HL.
  - intros i Hi. destruct (Hpre i Hi) as (b & Hb & Hnz).
    exists b. rewrite (load_same_mem _ _ _ E). auto.
  - rewrite (load_same_mem _ _ _ E). exact Hend.
Qed.

Lemma load_in_space (w : world) (a : Z) (b : byte) :
  load w a = Some b -> 0 <= a < 2 ^ 64.
Proof.
  unfold load. destruct ((0 <=? a) && (a <? 2 ^ 64)) eqn:E; [| discriminate].
  intros _. apply andb_true_iff in E. destruct E as [E1 E2].
  apply Z.leb_le in E1. apply Z.ltb_lt in E2. lia.
Qed.

Lemma first_zero_bound (w : world) (s L : Z) :
  first_zero_at w s L -> 0 <= s /\ 0 <= L /\ s + L < 2 ^ 64.
Proof.
  intros (HL & Hpre & Hend).
  pose proof (load_in_space _ _ _ Hend) as Hr.
  destruct (Z.eq_dec L 0) as [-> | Hnz].
  - lia.
  - destruct (Hpre 0 ltac:(lia)) as (b & Hb & _).
    apply load_in_space in Hb. lia.
Qed.

Lemma nonzero_true (b : byte) : b <> x00 -> nonzero b = true.
Proof.
  intros H. unfold nonzero. destruct (Byte.eqb b x00) eqn:E; [| reflexivity].
  apply Byte.byte_dec_bl in E. contradiction.
Qed.

Lemma nonzero_neq (b : byte) : nonzero b = true -> b <> x00.
Proof. intros H ->. discriminate H. Qed.

(** The loop, entered with [len] bytes already counted, stops at the
    terminator once the budget covers the bytes that are left. *)
Lemma scan_from (fuel : nat) (s L : Z) (w : world) :
  first_zero_at w s L ->
  forall len, 0 <= len <= L -> L - len < Z.of_nat fuel ->
  while fuel
        (fun len => c <- deref (s + len) ;; ret (nonzero c))
        (fun len => ret (to_ulong (len + 1)))
        len w
  = Returns L w.
Proof.
  intros Hz. pose proof (first_zero_bound _ _ _ Hz) as Hb.
  destruct Hz as (HL & Hpre & Hend).
  induction fuel as [| fuel IH]; intros len Hlen Hfuel.
  - simpl in Hfuel. lia.
  - cbn [while]. unfold bind, deref, ret.
    destruct (Z.eq_dec len L) as [-> | Hne].
    + rewrite Hend. reflexivity.
    + destruct (Hpre len ltac:(lia)) as (b & Hld & Hnz).
      rewrite Hld, (nonzero_true _ Hnz).
      unfold to_ulong. rewrite wrap_small by lia.
      apply IH; lia.
Qed.

Lemma sys_write_full (fd buf : Z) (bs : list byte) (st : stream) (w : world) :
  files w fd = Some st ->
  takes st (Z.of_nat (List.length bs)) ->
  holds w buf bs ->
  Kernel.sys_write fd buf (Z.of_nat (List.length bs)) w =
  (Z.of_nat (List.length bs),
   mkWorld (mem w)
           (Kernel.append fd st bs (Z.of_nat (List.length bs)) (files w))
           (log w ++ [ev_write fd buf (Z.of_nat (List.length bs))
                               (Z.of_nat (List.length bs))])
           (answers w)).
Proof.
  intros Hfd Htakes Hbs. unfold Kernel.sys_write.
  rewrite (transfer_full _ _ _ _ _ Hfd Htakes Hbs). reflexivity.
Qed.


Lemma write_eq_syscall (fd buf count : Z) (w : world) :
  hello_world.write fd buf count w = hello_world.syscall 1 fd buf count w.
Proof.
  unfold hello_world.write, hello_world.SYS_WRITE.
  rewrite !syscall_write.
  replace (qword (to_long count)) with (qword count)
    by (symmetry; apply wrap_signed; lia).
  reflexivity.
Qed.


Lemma c_string_first_zero (w : world) (s : Z) (bs : list byte) :
  c_string w s bs -> first_zero_at w s (Z.of_nat (List.length bs)).
Proof.
  unfold c_string. revert s.
  induction bs as [| b bs IH]; intros s [Hh Hnz].
  - cbn [app holds List.length Z.of_nat] in *. unfold first_zero_at.
    rewrite Z.add_0_r. repeat split; try lia. tauto.
  - cbn [app holds forallb] in *. apply andb_true_iff in Hnz.
    destruct Hh as [Hb Hrest]. destruct Hnz as [Hbnz Hnz].
    destruct (IH (s + 1) (conj Hrest Hnz)) as (HL & Hpre & Hend).
    repeat split.
    + lia.
    + intros i Hi. destruct (Z.eq_dec i 0) as [-> | Hi0].
      * exists b. rewrite Z.add_0_r. split; [exact Hb | apply nonzero_neq, Hbnz].
      * destruct (Hpre (i - 1)) as (c & Hc & Hcnz).
        { cbn [List.length] in Hi. lia. }
        exists c. replace (s + i) with (s + 1 + (i - 1)) by lia. auto.
    + replace (s + Z.of_nat (List.length (b :: bs)))
        with (s + 1 + Z.of_nat (List.length bs))
        by (cbn [List.length]; lia).
      exact Hend.
Qed.

(** ** The primitives *)

(** C1. The termination primitive never returns, in any of its variants
    ([exit] of hello_world.c, [exit] of simple_exit.c, [exit_syscall] of
    working_hello.c): for every status the call ends the process, and
    whatever the caller placed after the call ([rest]) has no part in the
    outcome.  So the [return 0] that follows [exit(42)] in [main] of
    simple_exit.c is dead: the program is its call of [exit]. *)
Theorem terminate_never_returns (A : Type) (status : Z) (w : world)
  (rest : unit -> M A) :
  (exists st w', hello_world.exit status w = Exits st w' /\
                 bind (hello_world.exit status) rest w = Exits st w') /\
  (exists st w', simple_exit.exit status w = Exits st w' /\
                 bind (simple_exit.exit status) rest w = Exits st w') /\
  (exists st w', working_hello.exit_syscall status w = Exits st w' /\
                 bind (working_hello.exit_syscall status) rest w = Exits st w') /\
  simple_exit.main w
    = Exits 42 (mkWorld (mem w) (files w) (log w ++ [ev_exit 42])
                        (answers w)).
Proof.
  refine (conj _ (conj _ (conj _ eq_refl))).
  - eexists _, _. unfold bind. rewrite hello_exit_trap. split; reflexivity.
  - eexists _, _. unfold bind. rewrite simple_exit_trap. split; reflexivity.
  - eexists _, _. unfold bind. rewrite exit_syscall_trap. split; reflexivity.
Qed.

(** C2. If the first zero byte of the sequence at [s] is at index [L], the
    length primitive ([strlen] of hello_world.c, [my_strlen] of
    printf_stub.c) returns exactly [L] and leaves the world as it was, as
    soon as the budget of the model covers the [L + 1] bytes it reads. *)
Theorem strlen_counts_to_first_zero (fuel : nat) (s L : Z) (w : world) :
  first_zero_at w s L ->
  L < Z.of_nat fuel ->
  hello_world.strlen fuel s w = Returns L w /\
  printf_stub.my_strlen fuel s w = Returns L w.
Proof.
  intros Hz Hfuel. pose proof (first_zero_bound _ _ _ Hz) as Hb.
  split; apply (scan_from fuel s L w Hz); lia.
Qed.








(** C5. For every [int] status [s], each variant of the termination
    primitive passes [s] itself to the kernel (the request the kernel logs
    is [exit s]) and the status observed from outside is [s mod 256], which
    is [s] when [s] is between 0 and 255. *)
Theorem exit_status_is_low_byte (s : Z) (w : world) :
  is_int s = true ->
  hello_world.exit s w
    = Exits (s mod 256)
            (mkWorld (mem w) (files w) (log w ++ [ev_exit s]) (answers w)) /\
  simple_exit.exit s w
    = Exits (s mod 256)
            (mkWorld (mem w) (files w) (log w ++ [ev_exit s]) (answers w)) /\
  working_hello.exit_syscall s w
    = Exits (s mod 256)
            (mkWorld (mem w) (files w) (log w ++ [ev_exit s]) (answers w)) /\
  (0 <= s <= 255 -> s mod 256 = s).
Proof.
  intros Hs.
  assert (Ed : dword (dword s) = dword s) by (apply wrap_wrap; lia).
  repeat split.
  - rewrite hello_exit_trap, (to_int_qword s Hs). reflexivity.
  - rewrite simple_exit_trap, Ed, (to_int_dword s Hs). reflexivity.
  - rewrite exit_syscall_trap, Ed, (to_int_dword s Hs). reflexivity.
  - intros Hr. apply Z.mod_small. lia.
Qed.

(** A status outside 0..255: 300 is observed as 44. *)
Lemma exit_status_is_low_byte_at_300 :
  is_int 300 = true /\
  hello_world.exit 300 boot
    = Exits 44 (mkWorld (mem boot) (files boot) [ev_exit 300]
                        (answers boot)) /\
  simple_exit.exit 300 boot
    = Exits 44 (mkWorld (mem boot) (files boot) [ev_exit 300]
                        (answers boot)).
Proof.
  split; [reflexivity |].
  pose proof (exit_status_is_low_byte 300 boot eq_refl) as (H1 & H2 & _).
  split; [exact H1 | exact H2].
Defined.

(** C7. simple_test.c: [main] computes [add_two_numbers(global_number, 42)]
    with [global_number = 100], returns the result modulo 256, which is 142,
    and asks nothing of the kernel; the process that terminates with that
    value has exit status 142 and produced no output. *)
Theorem simple_test_exits_with_142 (w : world) :
  simple_test.add_two_numbers simple_test.global_number 42 w = Returns 142 w /\
  simple_test.main w = Returns 142 w /\
  start simple_test.main w
    = Exits 142 (mkWorld (mem w) (files w) (log w ++ [ev_exit 142])
                         (answers w)).
Proof. repeat split. Qed.

Lemma sys_write_nothing (fd buf : Z) (st : stream) (w : world) :
  files w fd = Some st ->
  fst (Kernel.sys_write fd buf 0 w) = 0 /\
  forall fd', files (snd (Kernel.sys_write fd buf 0 w)) fd' = files w fd'.
Proof.
  intros Hfd.
  assert (Ht : takes st (Z.of_nat (List.length (@nil byte)))).
  { unfold takes, Kernel.accepted, Kernel.MAX_RW_COUNT. simpl. lia. }
  pose proof (sys_write_full fd buf [] st w Hfd Ht I) as E.
  cbn [List.length Z.of_nat] in E. rewrite E.
  split; [reflexivity |].
  intros fd'. cbn [snd files]. unfold Kernel.append.
  destruct (Z.eqb_spec fd' fd) as [-> | Hne]; [| reflexivity].
  rewrite Hfd, app_nil_r, Z.sub_0_r.
  destruct st; reflexivity.
Qed.

(** C8. On a handle [fd] that stands for a stream, and for every buffer
    address, the output primitive called with count 0 ([write] of
    hello_world.c, [write_syscall] of working_hello.c) returns 0 and leaves
    every stream as it was: no byte becomes visible. *)
Theorem write_of_zero_bytes (fd buf : Z) (st : stream) (w : world) :
  files w (dword fd) = Some st ->
  (exists w', hello_world.write fd buf 0 w = Returns 0 w' /\
              forall fd', files w' fd' = files w fd') /\
  (exists w', working_hello.write_syscall fd buf 0 w = Returns 0 w' /\
              forall fd', files w' fd' = files w fd').
Proof.
  intros Hfd. split.
  - rewrite write_eq_syscall, syscall_write.
    replace (dword (qword fd)) with (dword fd)
      by (symmetry; apply wrap_wrap; lia).
    change (qword 0) with 0.
    destruct (sys_write_nothing (dword fd) (qword buf) st w Hfd) as [Hr Hfs].
    rewrite Hr. eexists. split; [reflexivity | exact Hfs].
  - rewrite write_syscall_trap.
    replace (dword (dword (dword fd))) with (dword fd)
      by (unfold dword; rewrite !wrap_wrap by lia; reflexivity).
    change (dword (dword 0)) with 0.
    destruct (sys_write_nothing (dword fd) (qword (qword buf)) st w Hfd)
      as [Hr Hfs].
    rewrite Hr. eexists. split; [reflexivity | exact Hfs].
Qed.

(** Standard output of the fixture, with an arbitrary buffer address. *)
Lemma write_of_zero_bytes_on_stdout :
  files boot (dword 1) = Some (mkStream [] 4096) /\
  (exists w', hello_world.write 1 0 0 boot = Returns 0 w' /\
              forall fd', files w' fd' = files boot fd') /\
  (exists w', working_hello.write_syscall 1 0 0 boot = Returns 0 w' /\
              forall fd', files w' fd' = files boot fd').
Proof.
  split; [reflexivity |].
  exact (write_of_zero_bytes 1 0 (mkStream [] 4096) boot eq_refl).
Defined.

(** ** The hello programs *)

Lemma holds_in_space (w : world) (a : Z) (b : byte) (bs : list byte) :
  holds w a (b :: bs) -> qword a = a.
Proof.
  intros [Hb _]. apply load_in_space in Hb. apply wrap_small. exact Hb.
Qed.

Lemma sys_write_hello (a : Z) (st : stream) (w : world) :
  holds w a hello ->
  files w 1 = Some st ->
  takes st 13 ->
  Kernel.sys_write 1 a 13 w =
  (13, mkWorld (mem w) (Kernel.append 1 st hello 13 (files w))
               (log w ++ [ev_write 1 a 13 13]) (answers w)).
Proof.
  intros Hh Hfd Ht.
  exact (sys_write_full 1 a hello st w Hfd Ht Hh).
Qed.

Lemma strlen_hello (fuel : nat) (a : Z) (w : world) :
  holds w a hello ->
  load w (a + 13) = Some x00 ->
  (13 < fuel)%nat ->
  hello_world.strlen fuel a w = Returns 13 w.
Proof.
  intros Hh Hnul Hfuel.
  assert (Hz : first_zero_at w a (Z.of_nat (List.length hello))).
  { apply c_string_first_zero. split; [| reflexivity].
    apply holds_app. split; [exact Hh |].
    split; [exact Hnul | exact I]. }
  apply (scan_from fuel a 13 w Hz); lia.
Qed.

(** C6. With the 13 bytes of "Hello World!\n" loaded at [a] and a standard
    output that takes them, each hello program adds exactly those 13 bytes to
    standard output, in one write request, and ends the process with exit
    status 0.  inline_hello.c and working_hello.c pass the count 13 and need
    nothing after the 13 bytes; hello_world.c measures its string literal,
    which is followed by its terminator. *)
Theorem hello_programs_print_and_exit_0 (a : Z) (st : stream) (w : world) :
  holds w a hello ->
  files w 1 = Some st ->
  takes st 13 ->
  exists w',
    inline_hello.main a w = Exits 0 w' /\
    working_hello.main a w = Exits 0 w' /\
    (forall fuel,
        load w (a + 13) = Some x00 ->
        (13 < fuel)%nat ->
        hello_world.main a fuel w = Exits 0 w') /\
    stdout w' = Some (visible st ++ hello) /\
    (forall fd, fd <> 1 -> files w' fd = files w fd) /\
    log w' = log w ++ [ev_write 1 a 13 13; ev_exit 0].
Proof.
  intros Hh Hfd Ht.
  pose proof (holds_in_space _ _ _ _ Hh) as Ea.
  pose proof (sys_write_hello a st w Hh Hfd Ht) as Ew.
  exists (mkWorld (mem w) (Kernel.append 1 st hello 13 (files w))
                  ((log w ++ [ev_write 1 a 13 13]) ++ [ev_exit 0])
                  (answers w)).
  refine (conj _ (conj _ (conj _ (conj _ (conj _ _))))).
  - change (inline_hello.main a w)
      with (Exits (A := Z) 0
              (snd (Kernel.sys_exit 0 (snd (Kernel.sys_write 1 (qword a) 13 w))))).
    rewrite Ea, Ew. reflexivity.
  - unfold working_hello.main, bind. rewrite write_syscall_trap.
    change (dword (dword (dword 1))) with 1.
    change (dword (dword 13)) with 13.
    rewrite !Ea, Ew. reflexivity.
  - intros fuel Hnul Hfuel.
    unfold hello_world.main, hello_world.print, bind.
    rewrite (strlen_hello fuel a w Hh Hnul Hfuel).
    rewrite write_eq_syscall, syscall_write.
    change (dword (qword hello_world.STDOUT_FILENO)) with 1.
    change (qword 13) with 13. rewrite Ea, Ew. reflexivity.
  - unfold stdout. cbn [files]. unfold Kernel.append. reflexivity.
  - intros fd Hne. cbn [files]. unfold Kernel.append.
    destruct (Z.eqb_spec fd 1); [contradiction | reflexivity].
  - cbn [log]. rewrite <- app_assoc. reflexivity.
Qed.

(** Two images on a fresh capture.  With the terminated string at 4096 all
    three programs leave exactly the 13 bytes on standard output.  With the
    13 bytes alone, nothing mapped after them, inline_hello.c and
    working_hello.c still do. *)
Lemma hello_programs_on_a_capture :
  (holds boot 4096 hello /\
   files boot 1 = Some (mkStream [] 4096) /\
   takes (mkStream [] 4096) 13 /\
   load boot (4096 + 13) = Some x00 /\
   (13 < 14)%nat /\
   exists w',
     inline_hello.main 4096 boot = Exits 0 w' /\
     working_hello.main 4096 boot = Exits 0 w' /\
     hello_world.main 4096 14 boot = Exits 0 w' /\
     stdout w' = Some hello /\
     log w' = [ev_write 1 4096 13 13; ev_exit 0]) /\
  (holds ascii_only 4096 hello /\
   files ascii_only 1 = Some (mkStream [] 4096) /\
   takes (mkStream [] 4096) 13 /\
   load ascii_only (4096 + 13) = None /\
   exists w',
     inline_hello.main 4096 ascii_only = Exits 0 w' /\
     working_hello.main 4096 ascii_only = Exits 0 w' /\
     stdout w' = Some hello /\
     log w' = [ev_write 1 4096 13 13; ev_exit 0]).
Proof.
  assert (Hb : holds boot 4096 hello) by (vm_compute; repeat split).
  assert (Ha : holds ascii_only 4096 hello) by (vm_compute; repeat split).
  assert (Hf : (13 < 14)%nat) by lia.
  split.
  - split; [exact Hb |].
    split; [reflexivity |].
    split; [reflexivity |].
    split; [reflexivity |].
    split; [exact Hf |].
    destruct (hello_programs_print_and_exit_0 4096 (mkStream [] 4096) boot
                Hb eq_refl eq_refl)
      as (w' & Hi & Hw & Hh & Hout & _ & Hlog).
    exists w'.
    split; [exact Hi |].
    split; [exact Hw |].
    split; [exact (Hh 14%nat eq_refl Hf) |].
    split; [exact Hout | exact Hlog].
  - split; [exact Ha |].
    split; [reflexivity |].
    split; [reflexivity |].
    split; [reflexivity |].
    destruct (hello_programs_print_and_exit_0 4096 (mkStream [] 4096)
                ascii_only Ha eq_refl eq_refl)
      as (w' & Hi & Hw & _ & Hout & _ & Hlog).
    exists w'.
    split; [exact Hi |].
    split; [exact Hw |].
    split; [exact Hout | exact Hlog].
Defined.

(** The string of the fixture has its first zero at index 13, and the
    sequence that starts at that zero has length 0. *)
Lemma strlen_counts_hello :
  (first_zero_at boot 4096 13 /\ 13 < Z.of_nat 14 /\
   hello_world.strlen 14 4096 boot = Returns 13 boot /\
   printf_stub.my_strlen 14 4096 boot = Returns 13 boot) /\
  (first_zero_at boot 4109 0 /\ 0 < Z.of_nat 1 /\
   hello_world.strlen 1 4109 boot = Returns 0 boot /\
   printf_stub.my_strlen 1 4109 boot = Returns 0 boot).
Proof.
  assert (Hh : holds boot 4096 (hello ++ [x00])) by (vm_compute; repeat split).
  assert (H13 : first_zero_at boot 4096 13)
    by exact (c_string_first_zero boot 4096 hello (conj Hh eq_refl)).
  assert (H0 : first_zero_at boot 4109 0).
  { split; [lia |]. split; [intros i Hi; lia | reflexivity]. }
  split.
  - split; [exact H13 |]. split; [lia |].
    exact (strlen_counts_to_first_zero 14 4096 13 boot H13 ltac:(lia)).
  - split; [exact H0 |]. split; [lia |].
    exact (strlen_counts_to_first_zero 1 4109 0 boot H0 ltac:(lia)).
Defined.

(** ** The formatted-output stub *)

Lemma my_strlen_at (fuel : nat) (format L : Z) (w : world) :
  first_zero_at w format L -> L < Z.of_nat fuel ->
  printf_stub.my_strlen fuel format w = Returns L w.
Proof.
  intros Hz Hfuel. pose proof (first_zero_bound _ _ _ Hz) as Hb.
  apply (scan_from fuel format L w Hz); lia.
Qed.

(** What [printf] does, whatever the kernel makes of the write. *)
Lemma printf_unfolded (fuel : nat) (format L : Z) (va : list Z) (w : world) :
  first_zero_at w format L -> L < Z.of_nat fuel ->
  printf_stub.printf fuel format va w =
  Returns (to_int L) (snd (Kernel.sys_write 1 format L w)).
Proof.
  intros Hz Hfuel. pose proof (first_zero_bound _ _ _ Hz) as Hb.
  unfold printf_stub.printf, bind.
  rewrite (my_strlen_at fuel format L w Hz Hfuel).
  rewrite sys_write_trap.
  change (dword (dword 1)) with 1.
  unfold qword. rewrite !(wrap_small 64) by lia.
  rewrite (my_strlen_at fuel format L); [reflexivity | | exact Hfuel].
  apply (first_zero_same_mem w); [apply sys_write_mem | exact Hz].
Qed.

(** C9, amended.  [printf] hands its format string to standard output as
    it is.  In every world it makes one write request, on handle 1, for all
    the bytes [bs] before the terminator, whatever they are (a '%' is a byte
    like any other), and the variadic arguments [va] have no part in the
    outcome.  When standard output takes the request whole, exactly the
    bytes [bs] are added to it and no other stream changes. *)
Theorem printf_emits_format_verbatim (fuel : nat) (format : Z) (va : list Z)
  (bs : list byte) (w : world) :
  c_string w format bs ->
  Z.of_nat (List.length bs) < Z.of_nat fuel ->
  exists r w',
    printf_stub.printf fuel format va w = Returns r w' /\
    printf_stub.printf fuel format [] w = Returns r w' /\
    (exists k,
        log w' = log w ++ [ev_write 1 format (Z.of_nat (List.length bs)) k]) /\
    (forall st,
        files w 1 = Some st ->
        takes st (Z.of_nat (List.length bs)) ->
        stdout w' = Some (visible st ++ bs) /\
        forall fd, fd <> 1 -> files w' fd = files w fd).
Proof.
  intros Hs Hfuel.
  pose proof (c_string_first_zero _ _ _ Hs) as Hz.
  destruct Hs as [Hh _]. apply holds_app in Hh. destruct Hh as [Hh _].
  rewrite !(printf_unfolded fuel format _ _ w Hz Hfuel).
  eexists _, _.
  refine (conj eq_refl (conj eq_refl (conj _ _))).
  - eexists. reflexivity.
  - intros st Hfd Ht.
    rewrite (sys_write_full 1 format bs st w Hfd Ht Hh).
    unfold stdout. cbn [snd files]. unfold Kernel.append. split.
    + reflexivity.
    + intros fd Hne.
      destruct (Z.eqb_spec fd 1); [contradiction | reflexivity].
Qed.

(** A format string with a placeholder, "%d\n", and an argument. *)
Lemma printf_emits_placeholder_verbatim :
  c_string placeholder 4096 [x25; x64; x0a] /\
  3 < Z.of_nat 4 /\
  exists r w',
    printf_stub.printf 4 4096 [7] placeholder = Returns r w' /\
    printf_stub.printf 4 4096 [] placeholder = Returns r w' /\
    stdout w' = Some [x25; x64; x0a].
Proof.
  assert (Hs : c_string placeholder 4096 [x25; x64; x0a])
    by (split; [vm_compute; repeat split | reflexivity]).
  assert (Hfuel : Z.of_nat (List.length [x25; x64; x0a]) < Z.of_nat 4)
    by (simpl; lia).
  split; [exact Hs |].
  split; [lia |].
  destruct (printf_emits_format_verbatim 4 4096 [7] [x25; x64; x0a]
              placeholder Hs Hfuel)
    as (r & w' & Hva & Hnone & _ & Hout).
  exists r, w'.
  split; [exact Hva |].
  split; [exact Hnone |].
  exact (proj1 (Hout (mkStream [] 4096) eq_refl eq_refl)).
Defined.

(** C10, as stated, fails: the value [printf] returns is the length
    converted to [int].  For a format string of [2 ^ 31] bytes the length
    primitive returns 2147483648 and [printf] returns -2147483648. *)
Lemma printf_of_a_long_format_is_negative :
  printf_stub.my_strlen long_fuel 4096 long_format
    = Returns 2147483648 long_format /\
  printf_stub.printf long_fuel 4096 [] long_format
    = Returns (-2147483648)
              (snd (Kernel.sys_write 1 4096 2147483648 long_format)).
Proof.
  assert (Hz : first_zero_at long_format 4096 2147483648).
  { split; [lia |]. split.
    - intros i Hi. exists x61. split; [| discriminate].
      unfold load, long_format, filled. cbn [mem].
      replace ((0 <=? 4096 + i) && (4096 + i <? 2 ^ 64)) with true
        by (symmetry; apply andb_true_iff; rewrite Z.leb_le, Z.ltb_lt; lia).
      replace ((4096 <=? 4096 + i) && (4096 + i <? 4096 + 2 ^ 31)) with true
        by (symmetry; apply andb_true_iff; rewrite Z.leb_le, Z.ltb_lt; lia).
      reflexivity.
    - reflexivity. }
  assert (Hfuel : 2147483648 < Z.of_nat long_fuel)
    by (unfold long_fuel; lia).
  split.
  - exact (my_strlen_at long_fuel 4096 2147483648 long_format Hz Hfuel).
  - exact (printf_unfolded long_fuel 4096 2147483648 [] long_format Hz Hfuel).
Qed.

(** C10, amended.  [printf] returns the length [L] of its format string
    converted to [int], which is [L] itself up to [INT_MAX]; the result of
    the write request is not looked at: the returned value is the same
    whatever the kernel answered, and the world afterwards is the one the
    kernel left. *)
Theorem printf_returns_length_whatever_write_did (fuel : nat)
  (format L : Z) (va : list Z) (w : world) :
  first_zero_at w format L ->
  L < Z.of_nat fuel ->
  printf_stub.my_strlen fuel format w = Returns L w /\
  printf_stub.printf fuel format va w
    = Returns (to_int L) (snd (Kernel.sys_write 1 format L w)) /\
  (L <= INT_MAX -> to_int L = L).
Proof.
  intros Hz Hfuel. pose proof (first_zero_bound _ _ _ Hz) as Hb.
  split; [exact (my_strlen_at fuel format L w Hz Hfuel) |].
  split; [exact (printf_unfolded fuel format L va w Hz Hfuel) |].
  intros Hmax. unfold INT_MAX in Hmax. apply signed_id; simpl; lia.
Qed.

(** Three runs on the 13-byte example string: the kernel transfers all 13
    bytes, transfers 5 of them, refuses the request (no standard output);
    [printf] returns 13 each time. *)
Lemma printf_returns_13_in_three_runs :
  (first_zero_at boot 4096 13 /\ 13 < Z.of_nat 14 /\
   fst (Kernel.sys_write 1 4096 13 boot) = 13 /\
   printf_stub.printf 14 4096 [] boot
     = Returns 13 (snd (Kernel.sys_write 1 4096 13 boot))) /\
  (first_zero_at short_capture 4096 13 /\ 13 < Z.of_nat 14 /\
   fst (Kernel.sys_write 1 4096 13 short_capture) = 5 /\
   printf_stub.printf 14 4096 [] short_capture
     = Returns 13 (snd (Kernel.sys_write 1 4096 13 short_capture))) /\
  (first_zero_at no_stdout 4096 13 /\ 13 < Z.of_nat 14 /\
   fst (Kernel.sys_write 1 4096 13 no_stdout) = - 9 /\
   printf_stub.printf 14 4096 [] no_stdout
     = Returns 13 (snd (Kernel.sys_write 1 4096 13 no_stdout))).
Proof.
  assert (Hz : forall fs l an,
             first_zero_at (mkWorld (image 4096 (hello ++ [x00])) fs l an)
                           4096 13).
  { intros fs l an.
    apply (c_string_first_zero _ 4096 hello).
    split; [vm_compute; repeat split | reflexivity]. }
  assert (Hfuel : 13 < Z.of_nat 14) by lia.
  split; [| split].
  - split; [exact (Hz _ _ _) |]. split; [exact Hfuel |]. split; [reflexivity |].
    exact (proj1 (proj2 (printf_returns_length_whatever_write_did
                           14 4096 13 [] boot (Hz _ _ _) Hfuel))).
  - split; [exact (Hz _ _ _) |]. split; [exact Hfuel |]. split; [reflexivity |].
    exact (proj1 (proj2 (printf_returns_length_whatever_write_did
                           14 4096 13 [] short_capture (Hz _ _ _) Hfuel))).
  - split; [exact (Hz _ _ _) |]. split; [exact Hfuel |]. split; [reflexivity |].
    exact (proj1 (proj2 (printf_returns_length_whatever_write_did
                           14 4096 13 [] no_stdout (Hz _ _ _) Hfuel))).
Defined.

(** * Further properties of the examples *)

(** ** The length primitive, read backwards and off the end *)

(** Whatever the loop returns, entered with [len] nonzero bytes behind it,
    is the index of the first zero byte. *)
Lemma scan_sound (fuel : nat) (s L : Z) (w w' : world) :
  forall len,
    0 <= len ->
    (forall i, 0 <= i < len ->
               exists b, load w (s + i) = Some b /\ b <> x00) ->
    while fuel
          (fun len => c <- deref (s + len) ;; ret (nonzero c))
          (fun len => ret (to_ulong (len + 1)))
          len w
    = Returns L w' ->
    w' = w /\ first_zero_at w s L.
Proof.
  induction fuel as [| fuel IH]; intros len Hlen Hpre Hrun.
  - discriminate Hrun.
  - cbn [while] in Hrun. unfold bind, deref, ret in Hrun.
    destruct (load w (s + len)) as [b |] eqn:Hld; [| discriminate Hrun].
    destruct (nonzero b) eqn:Hnz.
    + apply (IH (to_ulong (len + 1))); [ | | exact Hrun].
      * apply wrap_range. lia.
      * intros i Hi.
        assert (Hle : to_ulong (len + 1) <= len + 1).
        { unfold to_ulong, wrap. apply Z.mod_le; [lia |].
          apply Z.pow_pos_nonneg; lia. }
        destruct (Z.eq_dec i len) as [-> | Hne].
        -- exists b. split; [exact Hld | apply nonzero_neq, Hnz].
        -- apply Hpre. lia.
    + inversion Hrun; subst. split; [reflexivity |].
      unfold nonzero in Hnz. apply negb_false_iff in Hnz.
      apply Byte.byte_dec_bl in Hnz. subst b.
      repeat split; assumption.
Qed.

(** X1. The converse of the length contract: whenever [strlen] (and so
    [my_strlen], the same loop) returns a value, that value is the index of
    the first zero byte of the sequence, every byte before it was readable
    and nonzero, and the world is as it was. *)
Theorem strlen_result_is_first_zero (fuel : nat) (s L : Z) (w w' : world) :
  hello_world.strlen fuel s w = Returns L w' ->
  w' = w /\ first_zero_at w s L /\
  printf_stub.my_strlen fuel s w = Returns L w.
Proof.
  intros Hrun.
  destruct (scan_sound fuel s L w w' 0 ltac:(lia) ltac:(intros; lia) Hrun)
    as [-> Hz].
  split; [reflexivity |]. split; [exact Hz | exact Hrun].
Qed.

Lemma strlen_result_on_hello :
  hello_world.strlen 14 4096 boot = Returns 13 boot /\
  first_zero_at boot 4096 13.
Proof.
  split; [reflexivity |].
  exact (proj1 (proj2 (strlen_result_is_first_zero 14 4096 13 boot boot
                         eq_refl))).
Defined.

(** The loop, entered [len] bytes into a run of [n] nonzero bytes that
    ends at an unreadable address, faults there. *)
Lemma scan_off_the_end (fuel : nat) (s n : Z) (w : world) :
  n < 2 ^ 64 ->
  (forall i, 0 <= i < n -> exists b, load w (s + i) = Some b /\ b <> x00) ->
  load w (s + n) = None ->
  forall len, 0 <= len <= n -> n - len < Z.of_nat fuel ->
  while fuel
        (fun len => c <- deref (s + len) ;; ret (nonzero c))
        (fun len => ret (to_ulong (len + 1)))
        len w
  = Undefined.
Proof.
  intros Hn Hpre Hend.
  induction fuel as [| fuel IH]; intros len Hlen Hfuel.
  - simpl in Hfuel. lia.
  - cbn [while]. unfold bind, deref, ret.
    destruct (Z.eq_dec len n) as [-> | Hne].
    + rewrite Hend. reflexivity.
    + destruct (Hpre len ltac:(lia)) as (b & Hld & Hnz).
      rewrite Hld, (nonzero_true _ Hnz).
      unfold to_ulong. rewrite wrap_small by lia.
      apply IH; lia.
Qed.

(** X2. No bounds are checked: on a run of [n] readable nonzero bytes that
    is followed by an unreadable address instead of a terminator, [strlen]
    and [my_strlen] read past the run and the behaviour is undefined; they
    return no length. *)
Theorem strlen_runs_off_unterminated (fuel : nat) (s n : Z) (w : world) :
  0 <= n < 2 ^ 64 ->
  (forall i, 0 <= i < n -> exists b, load w (s + i) = Some b /\ b <> x00) ->
  load w (s + n) = None ->
  n < Z.of_nat fuel ->
  hello_world.strlen fuel s w = Undefined /\
  printf_stub.my_strlen fuel s w = Undefined.
Proof.
  intros Hn Hpre Hend Hfuel.
  split; apply (scan_off_the_end fuel s n w); auto; lia.
Qed.

Lemma strlen_runs_off_two_bytes :
  0 <= 2 < 2 ^ 64 /\
  (forall i, 0 <= i < 2 ->
             exists b, load unterminated (4096 + i) = Some b /\ b <> x00) /\
  load unterminated (4096 + 2) = None /\
  2 < Z.of_nat 3 /\
  hello_world.strlen 3 4096 unterminated = Undefined /\
  printf_stub.my_strlen 3 4096 unterminated = Undefined.
Proof.
  assert (Hpre : forall i, 0 <= i < 2 ->
             exists b, load unterminated (4096 + i) = Some b /\ b <> x00).
  { intros i Hi.
    assert (Hc : i = 0 \/ i = 1) by lia.
    destruct Hc as [-> | ->].
    - exists x61. split; [reflexivity | discriminate].
    - exists x62. split; [reflexivity | discriminate]. }
  split; [lia |].
  split; [exact Hpre |].
  split; [reflexivity |].
  split; [lia |].
  exact (strlen_runs_off_unterminated 3 4096 2 unterminated
           ltac:(lia) Hpre eq_refl ltac:(lia)).
Defined.

(** ** Writes that fall short or fail *)

Lemma sys_write_other_streams (fd buf count : Z) (w : world) :
  forall fd', fd' <> fd ->
              files (snd (Kernel.sys_write fd buf count w)) fd' = files w fd'.
Proof.
  intros fd' Hne. cbn [Kernel.sys_write snd files]. unfold Kernel.transfer.
  destruct (files w fd) as [st |]; [| reflexivity].
  destruct ((Kernel.accepted st count =? 0) && (0 <? count)); [reflexivity |].
  destruct (Kernel.read_bytes w buf (Z.to_nat (Kernel.accepted st count)));
    [| reflexivity].
  cbn [snd]. unfold Kernel.append.
  destruct (Z.eqb_spec fd' fd); [contradiction | reflexivity].
Qed.

Lemma sys_write_closed (fd buf count : Z) (w : world) :
  files w fd = None ->
  Kernel.sys_write fd buf count w =
  (- 9, mkWorld (mem w) (files w) (log w ++ [ev_write fd buf count (- 9)])
                (answers w)).
Proof.
  intros Hfd. unfold Kernel.sys_write, Kernel.transfer. rewrite Hfd.
  reflexivity.
Qed.

Lemma holds_firstn (w : world) (bs : list byte) :
  forall a n, holds w a bs -> holds w a (firstn n bs).
Proof.
  induction bs as [| b bs IH]; intros a n H.
  - rewrite firstn_nil. exact I.
  - destruct n as [| n]; [exact I |].
    destruct H as [Hb Hrest]. cbn [firstn holds]. split; [exact Hb |].
    apply IH. exact Hrest.
Qed.

Lemma sys_write_short (fd buf count k : Z) (bs : list byte) (st : stream)
  (w : world) :
  files w fd = Some st ->
  Kernel.accepted st count = k ->
  0 < k <= Z.of_nat (List.length bs) ->
  holds w buf bs ->
  Kernel.sys_write fd buf count w =
  (k, mkWorld (mem w)
              (Kernel.append fd st (firstn (Z.to_nat k) bs) k (files w))
              (log w ++ [ev_write fd buf count k])
              (answers w)).
Proof.
  intros Hfd Hacc Hk Hbs. unfold Kernel.sys_write, Kernel.transfer.
  rewrite Hfd, Hacc.
  replace (k =? 0) with false by (symmetry; apply Z.eqb_neq; lia).
  cbn [andb].
  assert (Hlen : List.length (firstn (Z.to_nat k) bs) = Z.to_nat k)
    by (apply firstn_length_le; lia).
  pose proof (read_bytes_holds w _ buf (holds_firstn w bs buf (Z.to_nat k) Hbs))
    as Hrd.
  rewrite Hlen in Hrd. rewrite Hrd. reflexivity.
Qed.

Lemma strlen_at (fuel : nat) (s L : Z) (w : world) :
  first_zero_at w s L -> L < Z.of_nat fuel ->
  hello_world.strlen fuel s w = Returns L w.
Proof.
  intros Hz Hfuel. pose proof (first_zero_bound _ _ _ Hz) as Hb.
  apply (scan_from fuel s L w Hz); lia.
Qed.

(** What [print] does, whatever the kernel makes of the write. *)
Lemma print_unfolded (fuel : nat) (str L : Z) (w : world) :
  first_zero_at w str L -> L < Z.of_nat fuel ->
  hello_world.print fuel str w =
  Returns tt (snd (Kernel.sys_write 1 str L w)).
Proof.
  intros Hz Hfuel. pose proof (first_zero_bound _ _ _ Hz) as Hb.
  unfold hello_world.print, bind.
  rewrite (strlen_at fuel str L w Hz Hfuel).
  rewrite write_eq_syscall, syscall_write.
  change (dword (qword hello_world.STDOUT_FILENO)) with 1.
  unfold qword. rewrite !(wrap_small 64) by lia.
  reflexivity.
Qed.

(** X3. [print] puts a whole null-terminated string on standard output:
    one write request on handle 1 for all the bytes before the terminator;
    when standard output takes the request exactly those bytes are added to
    it, no other stream changes, and [print] returns. *)
Theorem print_emits_the_string (fuel : nat) (str : Z) (bs : list byte)
  (st : stream) (w : world) :
  c_string w str bs ->
  Z.of_nat (List.length bs) < Z.of_nat fuel ->
  files w 1 = Some st ->
  takes st (Z.of_nat (List.length bs)) ->
  exists w',
    hello_world.print fuel str w = Returns tt w' /\
    stdout w' = Some (visible st ++ bs) /\
    (forall fd, fd <> 1 -> files w' fd = files w fd) /\
    log w' = log w ++ [ev_write 1 str (Z.of_nat (List.length bs))
                                (Z.of_nat (List.length bs))].
Proof.
  intros Hs Hfuel Hfd Ht.
  pose proof (c_string_first_zero _ _ _ Hs) as Hz.
  destruct Hs as [Hh _]. apply holds_app in Hh. destruct Hh as [Hh _].
  rewrite (print_unfolded fuel str _ w Hz Hfuel).
  rewrite (sys_write_full 1 str bs st w Hfd Ht Hh).
  eexists. split; [reflexivity |].
  cbn [snd]. unfold stdout. cbn [files log]. unfold Kernel.append.
  split; [reflexivity |]. split; [| reflexivity].
  intros fd Hne. destruct (Z.eqb_spec fd 1); [contradiction | reflexivity].
Qed.

Lemma print_emits_hello :
  c_string boot 4096 hello /\
  Z.of_nat (List.length hello) < Z.of_nat 14 /\
  files boot 1 = Some (mkStream [] 4096) /\
  takes (mkStream [] 4096) (Z.of_nat (List.length hello)) /\
  exists w',
    hello_world.print 14 4096 boot = Returns tt w' /\
    stdout w' = Some hello /\
    (forall fd, fd <> 1 -> files w' fd = files boot fd) /\
    log w' = [ev_write 1 4096 13 13].
Proof.
  assert (Hs : c_string boot 4096 hello)
    by (split; [vm_compute; repeat split | reflexivity]).
  assert (Hfuel : Z.of_nat (List.length hello) < Z.of_nat 14)
    by (simpl; lia).
  split; [exact Hs |].
  split; [exact Hfuel |].
  split; [reflexivity |].
  split; [reflexivity |].
  exact (print_emits_the_string 14 4096 hello (mkStream [] 4096) boot
           Hs Hfuel eq_refl eq_refl).
Defined.

Lemma to_int_small (L : Z) : 0 <= L <= INT_MAX -> to_int L = L.
Proof.
  unfold INT_MAX. intros H. apply signed_id; simpl; lia.
Qed.

(** X4. A short write is not retried: when standard output takes only the
    first [k] of the [L] bytes of a string that an [int] can count, [print]
    and [printf] leave exactly those [k] bytes on it and return, and
    [printf] still returns the full length [L]. *)
Theorem short_write_is_not_retried (fuel : nat) (str k : Z) (va : list Z)
  (bs : list byte) (st : stream) (w : world) :
  c_string w str bs ->
  Z.of_nat (List.length bs) < Z.of_nat fuel ->
  Z.of_nat (List.length bs) <= INT_MAX ->
  files w 1 = Some st ->
  Kernel.accepted st (Z.of_nat (List.length bs)) = k ->
  0 < k < Z.of_nat (List.length bs) ->
  exists w',
    hello_world.print fuel str w = Returns tt w' /\
    printf_stub.printf fuel str va w
      = Returns (Z.of_nat (List.length bs)) w' /\
    stdout w' = Some (visible st ++ firstn (Z.to_nat k) bs) /\
    log w' = log w ++ [ev_write 1 str (Z.of_nat (List.length bs)) k].
Proof.
  intros Hs Hfuel Hmax Hfd Hacc Hk.
  pose proof (c_string_first_zero _ _ _ Hs) as Hz.
  destruct Hs as [Hh _]. apply holds_app in Hh. destruct Hh as [Hh _].
  rewrite (print_unfolded fuel str _ w Hz Hfuel).
  rewrite (printf_unfolded fuel str _ va w Hz Hfuel).
  rewrite (to_int_small (Z.of_nat (List.length bs)) ltac:(lia)).
  rewrite (sys_write_short 1 str _ k bs st w Hfd Hacc ltac:(lia) Hh).
  eexists. split; [reflexivity |]. split; [reflexivity |].
  cbn [snd]. unfold stdout. cbn [files log]. unfold Kernel.append.
  split; reflexivity.
Qed.

Lemma short_write_of_hello :
  c_string short_capture 4096 hello /\
  Z.of_nat (List.length hello) < Z.of_nat 14 /\
  Z.of_nat (List.length hello) <= INT_MAX /\
  files short_capture 1 = Some (mkStream [] 5) /\
  Kernel.accepted (mkStream [] 5) (Z.of_nat (List.length hello)) = 5 /\
  0 < 5 < Z.of_nat (List.length hello) /\
  exists w',
    hello_world.print 14 4096 short_capture = Returns tt w' /\
    printf_stub.printf 14 4096 [] short_capture = Returns 13 w' /\
    stdout w' = Some [x48; x65; x6c; x6c; x6f] /\
    log w' = [ev_write 1 4096 13 5].
Proof.
  assert (Hs : c_string short_capture 4096 hello)
    by (split; [vm_compute; repeat split | reflexivity]).
  assert (Hfuel : Z.of_nat (List.length hello) < Z.of_nat 14)
    by (simpl; lia).
  assert (Hmax : Z.of_nat (List.length hello) <= INT_MAX)
    by (unfold INT_MAX; simpl; lia).
  assert (Hk : 0 < 5 < Z.of_nat (List.length hello)) by (simpl; lia).
  split; [exact Hs |].
  split; [exact Hfuel |].
  split; [exact Hmax |].
  split; [reflexivity |].
  split; [reflexivity |].
  split; [exact Hk |].
  exact (short_write_is_not_retried 14 4096 5 [] hello (mkStream [] 5)
           short_capture Hs Hfuel Hmax eq_refl eq_refl Hk).
Defined.

(** X5. A failed write goes unnoticed: when handle 1 is not an open
    stream the kernel refuses the request with -9, [print] and [printf]
    return all the same, [printf] with the length [L] of its format string
    (a length that an [int] can hold), and no stream has changed. *)
Theorem write_failure_is_swallowed (fuel : nat) (str L : Z) (va : list Z)
  (w : world) :
  first_zero_at w str L ->
  L < Z.of_nat fuel ->
  L <= INT_MAX ->
  files w 1 = None ->
  hello_world.print fuel str w
    = Returns tt (mkWorld (mem w) (files w)
                          (log w ++ [ev_write 1 str L (- 9)]) (answers w)) /\
  printf_stub.printf fuel str va w
    = Returns L (mkWorld (mem w) (files w)
                         (log w ++ [ev_write 1 str L (- 9)]) (answers w)).
Proof.
  intros Hz Hfuel Hmax Hfd.
  pose proof (first_zero_bound _ _ _ Hz) as Hb.
  rewrite (print_unfolded fuel str L w Hz Hfuel).
  rewrite (printf_unfolded fuel str L va w Hz Hfuel).
  rewrite (to_int_small L ltac:(lia)).
  rewrite (sys_write_closed 1 str L w Hfd).
  split; reflexivity.
Qed.

Lemma write_failure_without_stdout :
  first_zero_at no_stdout 4096 13 /\
  13 < Z.of_nat 14 /\
  13 <= INT_MAX /\
  files no_stdout 1 = None /\
  hello_world.print 14 4096 no_stdout
    = Returns tt (mkWorld (mem no_stdout) closed [ev_write 1 4096 13 (- 9)]
                          unimplemented) /\
  printf_stub.printf 14 4096 [] no_stdout
    = Returns 13 (mkWorld (mem no_stdout) closed [ev_write 1 4096 13 (- 9)]
                          unimplemented).
Proof.
  assert (Hz : first_zero_at no_stdout 4096 13).
  { apply (c_string_first_zero no_stdout 4096 hello).
    split; [vm_compute; repeat split | reflexivity]. }
  assert (Hfuel : 13 < Z.of_nat 14) by lia.
  assert (Hmax : 13 <= INT_MAX) by (unfold INT_MAX; lia).
  split; [exact Hz |].
  split; [exact Hfuel |].
  split; [exact Hmax |].
  split; [reflexivity |].
  exact (write_failure_is_swallowed 14 4096 13 [] no_stdout
           Hz Hfuel Hmax eq_refl).
Defined.

(** X6. [printf] of a string has the effect of [print] of that string, and
    in every world that effect is confined to standard output: whatever the
    kernel answers, memory is as before and so is every stream other than
    handle 1. *)
Theorem print_and_printf_touch_only_stdout (fuel : nat) (str L : Z)
  (va : list Z) (w : world) :
  first_zero_at w str L ->
  L < Z.of_nat fuel ->
  exists w',
    hello_world.print fuel str w = Returns tt w' /\
    printf_stub.printf fuel str va w = Returns (to_int L) w' /\
    mem w' = mem w /\
    forall fd, fd <> 1 -> files w' fd = files w fd.
Proof.
  intros Hz Hfuel.
  rewrite (print_unfolded fuel str L w Hz Hfuel).
  rewrite (printf_unfolded fuel str L va w Hz Hfuel).
  eexists. split; [reflexivity |]. split; [reflexivity |].
  split; [apply sys_write_mem | apply sys_write_other_streams].
Qed.

Lemma print_and_printf_on_a_short_capture :
  first_zero_at short_capture 4096 13 /\
  13 < Z.of_nat 14 /\
  exists w',
    hello_world.print 14 4096 short_capture = Returns tt w' /\
    printf_stub.printf 14 4096 [] short_capture = Returns 13 w' /\
    mem w' = mem short_capture /\
    forall fd, fd <> 1 -> files w' fd = files short_capture fd.
Proof.
  assert (Hz : first_zero_at short_capture 4096 13).
  { apply (c_string_first_zero short_capture 4096 hello).
    split; [vm_compute; repeat split | reflexivity]. }
  assert (Hfuel : 13 < Z.of_nat 14) by lia.
  split; [exact Hz |].
  split; [exact Hfuel |].
  exact (print_and_printf_touch_only_stdout 14 4096 13 [] short_capture
           Hz Hfuel).
Defined.

(** ** The hello programs in any world *)

Lemma inline_hello_unfolded (a : Z) (w : world) :
  inline_hello.main a w =
  Exits 0 (snd (Kernel.sys_exit 0 (snd (Kernel.sys_write 1 (qword a) 13 w)))).
Proof. reflexivity. Qed.

Lemma working_hello_unfolded (a : Z) (w : world) :
  working_hello.main a w =
  Exits 0 (snd (Kernel.sys_exit 0 (snd (Kernel.sys_write 1 (qword a) 13 w)))).
Proof.
  unfold working_hello.main, bind.
  rewrite write_syscall_trap, exit_syscall_trap.
  change (dword (dword (dword 1))) with 1.
  change (dword (dword 13)) with 13.
  change (to_int (dword (dword 0))) with 0.
  unfold qword. rewrite (wrap_wrap 64 64) by lia.
  reflexivity.
Qed.

(** X7. inline_hello.c and working_hello.c are the same program: for
    every address of the message and every world their outcomes coincide.
    Neither looks at the result of its write: the process ends with status
    0 after one write request of 13 bytes on handle 1, whether or not the
    kernel transferred anything, with memory and the other streams as they
    were. *)
Theorem inline_and_working_hello_agree (a : Z) (w : world) :
  inline_hello.main a w = working_hello.main a w /\
  exists w' k,
    inline_hello.main a w = Exits 0 w' /\
    log w' = log w ++ [ev_write 1 (qword a) 13 k; ev_exit 0] /\
    mem w' = mem w /\
    forall fd, fd <> 1 -> files w' fd = files w fd.
Proof.
  split.
  - rewrite inline_hello_unfolded, working_hello_unfolded. reflexivity.
  - rewrite inline_hello_unfolded. eexists _, _.
    split; [reflexivity |]. split; [| split].
    + cbn [Kernel.sys_exit Kernel.sys_write snd log].
      rewrite <- app_assoc. reflexivity.
    + reflexivity.
    + intros fd Hne. cbn [Kernel.sys_exit snd files].
      apply (sys_write_other_streams 1 (qword a) 13 w fd Hne).
Qed.

(** X8. hello_world.c ends with status 0 whatever became of its output:
    with any null-terminated string at the literal's address, [main] makes
    one write request for the whole string and then the exit request, in
    every world; with the example string there, it is the same program as
    inline_hello.c. *)
Theorem hello_world_exits_0_in_any_world (fuel : nat) (literal : Z)
  (bs : list byte) (w : world) :
  c_string w literal bs ->
  Z.of_nat (List.length bs) < Z.of_nat fuel ->
  (exists w' k,
      hello_world.main literal fuel w = Exits 0 w' /\
      log w' = log w ++ [ev_write 1 literal (Z.of_nat (List.length bs)) k;
                         ev_exit 0] /\
      mem w' = mem w /\
      forall fd, fd <> 1 -> files w' fd = files w fd) /\
  (bs = hello ->
   hello_world.main literal fuel w = inline_hello.main literal w).
Proof.
  intros Hs Hfuel.
  pose proof (c_string_first_zero _ _ _ Hs) as Hz.
  pose proof (first_zero_bound _ _ _ Hz) as Hb.
  assert (Emain : hello_world.main literal fuel w =
                  Exits 0 (snd (Kernel.sys_exit 0
                     (snd (Kernel.sys_write 1 literal
                             (Z.of_nat (List.length bs)) w))))).
  { unfold hello_world.main, bind.
    rewrite (print_unfolded fuel literal _ w Hz Hfuel), hello_exit_trap.
    reflexivity. }
  split.
  - rewrite Emain. eexists _, _.
    split; [reflexivity |]. split; [| split].
    + cbn [Kernel.sys_exit Kernel.sys_write snd log].
      rewrite <- app_assoc. reflexivity.
    + reflexivity.
    + intros fd Hne. cbn [Kernel.sys_exit snd files].
      apply (sys_write_other_streams 1 literal _ w fd Hne).
  - intros ->. rewrite Emain, inline_hello_unfolded.
    unfold qword. rewrite wrap_small by lia. reflexivity.
Qed.

Lemma hello_world_without_stdout :
  c_string no_stdout 4096 hello /\
  Z.of_nat (List.length hello) < Z.of_nat 14 /\
  (exists w' k,
      hello_world.main 4096 14 no_stdout = Exits 0 w' /\
      log w' = [ev_write 1 4096 13 k; ev_exit 0] /\
      mem w' = mem no_stdout /\
      forall fd, fd <> 1 -> files w' fd = files no_stdout fd) /\
  hello_world.main 4096 14 no_stdout = inline_hello.main 4096 no_stdout.
Proof.
  assert (Hs : c_string no_stdout 4096 hello)
    by (split; [vm_compute; repeat split | reflexivity]).
  assert (Hfuel : Z.of_nat (List.length hello) < Z.of_nat 14)
    by (simpl; lia).
  split; [exact Hs |].
  split; [exact Hfuel |].
  destruct (hello_world_exits_0_in_any_world 14 4096 hello no_stdout
              Hs Hfuel) as [Hrun Hsame].
  split; [exact Hrun | exact (Hsame eq_refl)].
Defined.

(** ** The two write wrappers *)

Lemma write_result_range (fd buf count : Z) (w : world) :
  0 <= count ->
  - 4095 <= fst (Kernel.sys_write fd buf count w) <= count.
Proof.
  intros Hc. cbn [Kernel.sys_write fst].
  destruct (transfer_cases fd buf count w Hc)
    as [[Herr _] | (st & bs & _ & Hn & _)];
    unfold Kernel.MAX_ERRNO in *; lia.
Qed.

(** X9. For a count an [int] can hold and that is not negative,
    [write_syscall] of working_hello.c and [write] of hello_world.c are
    interchangeable: same request to the kernel, same result, same world,
    for every handle and buffer address (the 32-bit moves and the [int]
    result lose nothing). *)
Theorem write_syscall_agrees_with_write (fd buf count : Z) (w : world) :
  0 <= count <= INT_MAX ->
  working_hello.write_syscall fd buf count w
    = hello_world.write fd buf count w.
Proof.
  intros Hc. unfold INT_MAX in Hc.
  rewrite write_syscall_trap, write_eq_syscall, syscall_write.
  replace (dword (dword (dword fd))) with (dword fd)
    by (unfold dword; rewrite !wrap_wrap by lia; reflexivity).
  replace (dword (qword fd)) with (dword fd)
    by (symmetry; apply wrap_wrap; lia).
  replace (qword (qword buf)) with (qword buf)
    by (symmetry; apply wrap_wrap; lia).
  replace (dword (dword count)) with count
    by (symmetry; unfold dword; rewrite wrap_wrap by lia;
        apply wrap_small; lia).
  replace (qword count) with count
    by (symmetry; apply wrap_small; lia).
  pose proof (write_result_range (dword fd) (qword buf) count w ltac:(lia))
    as Hr.
  set (r := fst (Kernel.sys_write (dword fd) (qword buf) count w)) in *.
  replace (to_int (dword (qword r))) with r.
  - replace (to_long (qword r)) with r; [reflexivity |].
    symmetry. apply signed_small; simpl; lia.
  - symmetry. unfold dword, qword. rewrite wrap_wrap by lia.
    apply signed_small; simpl; lia.
Qed.

Lemma write_syscall_agrees_on_hello :
  0 <= 13 <= INT_MAX /\
  working_hello.write_syscall 1 4096 13 boot
    = hello_world.write 1 4096 13 boot.
Proof.
  assert (Hc : 0 <= 13 <= INT_MAX) by (unfold INT_MAX; lia).
  split; [exact Hc |].
  exact (write_syscall_agrees_with_write 1 4096 13 boot Hc).
Defined.

(** X10. [write_syscall] does not reject a negative count: the 32-bit move
    into edx makes it a request for [count + 2^32] bytes, which is what the
    kernel is asked for. *)
Theorem write_syscall_negative_count (fd buf count : Z) (w : world) :
  INT_MIN <= count < 0 ->
  exists r w' k,
    working_hello.write_syscall fd buf count w = Returns r w' /\
    log w' = log w ++ [ev_write (dword fd) (qword buf) (count + 2 ^ 32) k].
Proof.
  intros Hc. unfold INT_MIN in Hc.
  rewrite write_syscall_trap.
  replace (dword (dword (dword fd))) with (dword fd)
    by (unfold dword; rewrite !wrap_wrap by lia; reflexivity).
  replace (qword (qword buf)) with (qword buf)
    by (symmetry; apply wrap_wrap; lia).
  assert (Ec : dword (dword count) = count + 2 ^ 32).
  { unfold dword. rewrite wrap_wrap by lia. unfold wrap.
    symmetry. apply Z.mod_unique with (q := -1); lia. }
  rewrite Ec. eexists _, _, _. split; reflexivity.
Qed.

Lemma write_syscall_count_minus_1 :
  INT_MIN <= -1 < 0 /\
  exists r w' k,
    working_hello.write_syscall 1 4096 (-1) boot = Returns r w' /\
    log w' = [ev_write 1 4096 4294967295 k].
Proof.
  assert (Hc : INT_MIN <= -1 < 0) by (unfold INT_MIN; lia).
  split; [exact Hc |].
  exact (write_syscall_negative_count 1 4096 (-1) boot Hc).
Defined.

(** ** Composition *)

Lemma first_zero_shift (w : world) (s L i : Z) :
  first_zero_at w s L -> 0 <= i <= L -> first_zero_at w (s + i) (L - i).
Proof.
  intros (HL & Hpre & Hend) Hi. repeat split.
  - lia.
  - intros j Hj. replace (s + i + j) with (s + (i + j)) by lia.
    apply Hpre. lia.
  - replace (s + i + (L - i)) with (s + L) by lia. exact Hend.
Qed.

(** X11. The length of a tail: if the first zero byte of the sequence at
    [s] is at index [L], then from any position [i] inside the sequence
    [strlen] and [my_strlen] count the [L - i] bytes that are left; at the
    terminator itself ([i = L]) they return 0. *)
Theorem strlen_of_a_tail (fuel : nat) (s L i : Z) (w : world) :
  first_zero_at w s L ->
  0 <= i <= L ->
  L - i < Z.of_nat fuel ->
  hello_world.strlen fuel (s + i) w = Returns (L - i) w /\
  printf_stub.my_strlen fuel (s + i) w = Returns (L - i) w.
Proof.
  intros Hz Hi Hfuel.
  pose proof (first_zero_shift w s L i Hz Hi) as Hz'.
  split.
  - exact (strlen_at fuel (s + i) (L - i) w Hz' Hfuel).
  - exact (my_strlen_at fuel (s + i) (L - i) w Hz' Hfuel).
Qed.

Lemma strlen_of_world :
  first_zero_at boot 4096 13 /\
  0 <= 6 <= 13 /\
  13 - 6 < Z.of_nat 8 /\
  hello_world.strlen 8 (4096 + 6) boot = Returns (13 - 6) boot /\
  printf_stub.my_strlen 8 (4096 + 6) boot = Returns (13 - 6) boot.
Proof.
  assert (Hz : first_zero_at boot 4096 13).
  { apply (c_string_first_zero boot 4096 hello).
    split; [vm_compute; repeat split | reflexivity]. }
  split; [exact Hz |].
  split; [lia |].
  split; [lia |].
  exact (strlen_of_a_tail 8 4096 13 6 boot Hz ltac:(lia) ltac:(lia)).
Defined.

Lemma holds_same_mem (w w' : world) (bs : list byte) :
  mem w' = mem w -> forall a, holds w a bs -> holds w' a bs.
Proof.
  intros E. induction bs as [| b bs IH]; intros a H.
  - exact I.
  - destruct H as [Hb Hrest]. split.
    + rewrite (load_same_mem _ _ _ E). exact Hb.
    + apply IH. exact Hrest.
Qed.

(** X12. Output accumulates in call order: two calls of [printf] in a row,
    on a standard output that takes both strings, leave the first string
    followed by the second on it, and the second call returns the length of
    its own string. *)
Theorem printf_twice_appends_in_order (fuel : nat) (f1 f2 : Z)
  (va1 va2 : list Z) (bs1 bs2 : list byte) (st : stream) (w : world) :
  c_string w f1 bs1 ->
  c_string w f2 bs2 ->
  Z.of_nat (List.length bs1) < Z.of_nat fuel ->
  Z.of_nat (List.length bs2) < Z.of_nat fuel ->
  files w 1 = Some st ->
  takes st (Z.of_nat (List.length bs1)) ->
  takes (mkStream (visible st ++ bs1)
                  (room st - Z.of_nat (List.length bs1)))
        (Z.of_nat (List.length bs2)) ->
  exists w',
    (printf_stub.printf fuel f1 va1 ;;; printf_stub.printf fuel f2 va2) w
      = Returns (to_int (Z.of_nat (List.length bs2))) w' /\
    stdout w' = Some (visible st ++ bs1 ++ bs2) /\
    log w' = log w ++
             [ev_write 1 f1 (Z.of_nat (List.length bs1))
                            (Z.of_nat (List.length bs1));
              ev_write 1 f2 (Z.of_nat (List.length bs2))
                            (Z.of_nat (List.length bs2))].
Proof.
  intros Hs1 Hs2 Hfuel1 Hfuel2 Hfd Ht1 Ht2.
  pose proof (c_string_first_zero _ _ _ Hs1) as Hz1.
  pose proof (c_string_first_zero _ _ _ Hs2) as Hz2.
  destruct Hs1 as [Hh1 _]. apply holds_app in Hh1. destruct Hh1 as [Hh1 _].
  destruct Hs2 as [Hh2 _]. apply holds_app in Hh2. destruct Hh2 as [Hh2 _].
  unfold bind.
  rewrite (printf_unfolded fuel f1 _ va1 w Hz1 Hfuel1).
  rewrite (sys_write_full 1 f1 bs1 st w Hfd Ht1 Hh1). cbn [snd].
  set (w1 := mkWorld (mem w) _ _ _).
  assert (Hz2' : first_zero_at w1 f2 (Z.of_nat (List.length bs2)))
    by (apply (first_zero_same_mem w); [reflexivity | exact Hz2]).
  assert (Hh2' : holds w1 f2 bs2)
    by (apply (holds_same_mem w); [reflexivity | exact Hh2]).
  assert (Hfd' : files w1 1 = Some (mkStream (visible st ++ bs1)
                   (room st - Z.of_nat (List.length bs1))))
    by reflexivity.
  rewrite (printf_unfolded fuel f2 _ va2 w1 Hz2' Hfuel2).
  rewrite (sys_write_full 1 f2 bs2 _ w1 Hfd' Ht2 Hh2').
  eexists. split; [reflexivity |].
  cbn [snd]. unfold stdout. cbn [files log]. unfold Kernel.append, w1.
  cbn [visible log]. rewrite <- !app_assoc. split; reflexivity.
Qed.

(** The example string, then its tail from index 6 on. *)
Lemma printf_hello_then_world :
  c_string boot 4096 hello /\
  c_string boot 4102 [x57; x6f; x72; x6c; x64; x21; x0a] /\
  Z.of_nat (List.length hello) < Z.of_nat 14 /\
  7 < Z.of_nat 14 /\
  files boot 1 = Some (mkStream [] 4096) /\
  takes (mkStream [] 4096) 13 /\
  takes (mkStream hello 4083) 7 /\
  exists w',
    (printf_stub.printf 14 4096 [] ;;; printf_stub.printf 14 4102 []) boot
      = Returns 7 w' /\
    stdout w' = Some (hello ++ [x57; x6f; x72; x6c; x64; x21; x0a]) /\
    log w' = [ev_write 1 4096 13 13; ev_write 1 4102 7 7].
Proof.
  assert (Hs1 : c_string boot 4096 hello)
    by (split; [vm_compute; repeat split | reflexivity]).
  assert (Hs2 : c_string boot 4102 [x57; x6f; x72; x6c; x64; x21; x0a])
    by (split; [vm_compute; repeat split | reflexivity]).
  assert (Hf1 : Z.of_nat (List.length hello) < Z.of_nat 14) by (simpl; lia).
  assert (Hf2 : Z.of_nat (List.length [x57; x6f; x72; x6c; x64; x21; x0a])
                < Z.of_nat 14) by (simpl; lia).
  split; [exact Hs1 |].
  split; [exact Hs2 |].
  split; [exact Hf1 |].
  split; [lia |].
  split; [reflexivity |].
  split; [reflexivity |].
  split; [reflexivity |].
  exact (printf_twice_appends_in_order 14 4096 4102 [] [] hello
           [x57; x6f; x72; x6c; x64; x21; x0a] (mkStream [] 4096) boot
           Hs1 Hs2 Hf1 Hf2 eq_refl eq_refl eq_refl).
Defined.

(** ** A format string longer than one request *)

Lemma load_filled (a0 n a : Z) (fs : Z -> option stream) (l : list event)
  (an : Z -> Z -> Z -> Z -> Z) :
  0 <= a0 -> a0 + n < 2 ^ 64 -> a0 <= a < a0 + n ->
  load (mkWorld (filled a0 n) fs l an) a = Some x61.
Proof.
  intros H0 Hn Ha. unfold load, filled. cbn [mem].
  replace ((0 <=? a) && (a <? 2 ^ 64)) with true
    by (symmetry; apply andb_true_iff; rewrite Z.leb_le, Z.ltb_lt; lia).
  replace ((a0 <=? a) && (a <? a0 + n)) with true
    by (symmetry; apply andb_true_iff; rewrite Z.leb_le, Z.ltb_lt; lia).
  reflexivity.
Qed.

Lemma holds_filled (a0 n : Z) (fs : Z -> option stream) (l : list event)
  (an : Z -> Z -> Z -> Z -> Z) :
  0 <= a0 -> a0 + n < 2 ^ 64 ->
  forall k a, a0 <= a -> a + Z.of_nat k <= a0 + n ->
              holds (mkWorld (filled a0 n) fs l an) a (repeat x61 k).
Proof.
  intros H0 Hn. induction k as [| k IH]; intros a Ha Hk.
  - exact I.
  - cbn [repeat holds]. split.
    + apply load_filled; lia.
    + apply IH; lia.
Qed.

Lemma first_zero_filled (a0 n : Z) (fs : Z -> option stream) (l : list event)
  (an : Z -> Z -> Z -> Z -> Z) :
  0 <= a0 -> 0 <= n -> a0 + n < 2 ^ 64 ->
  first_zero_at (mkWorld (filled a0 n) fs l an) a0 n.
Proof.
  intros H0 Hn Hend. split; [exact Hn |]. split.
  - intros i Hi. exists x61. split; [| discriminate].
    apply load_filled; lia.
  - unfold load, filled. cbn [mem].
    replace ((0 <=? a0 + n) && (a0 + n <? 2 ^ 64)) with true
      by (symmetry; apply andb_true_iff; rewrite Z.leb_le, Z.ltb_lt; lia).
    replace ((a0 <=? a0 + n) && (a0 + n <? a0 + n)) with false
      by (symmetry; apply andb_false_iff; right; apply Z.ltb_ge; lia).
    rewrite Z.eqb_refl. reflexivity.
Qed.

(** C9, as stated, fails: a format string of [2 ^ 31] bytes is not emitted
    in full.  [printf] makes its one write request for all 2147483648 bytes,
    a standard output with room for [2 ^ 32] bytes takes 2147479552 of them
    in that request, and [printf] returns without asking again. *)
Lemma printf_of_a_long_format_is_cut_short :
  first_zero_at long_roomy 4096 2147483648 /\
  exists w' out,
    printf_stub.printf long_fuel 4096 [] long_roomy
      = Returns (-2147483648) w' /\
    log w' = [ev_write 1 4096 2147483648 2147479552] /\
    stdout w' = Some out /\
    Z.of_nat (List.length out) = 2147479552.
Proof.
  assert (Hz : first_zero_at long_roomy 4096 2147483648)
    by (apply first_zero_filled; lia).
  assert (Hfuel : 2147483648 < Z.of_nat long_fuel)
    by (unfold long_fuel; lia).
  assert (Hh : holds long_roomy 4096 (repeat x61 (Z.to_nat 2147483648)))
    by (apply holds_filled; lia).
  assert (Hk : 0 < 2147479552
               <= Z.of_nat (List.length (repeat x61 (Z.to_nat 2147483648))))
    by (rewrite repeat_length; lia).
  pose proof (sys_write_short 1 4096 2147483648 2147479552
                (repeat x61 (Z.to_nat 2147483648)) (mkStream [] (2 ^ 32))
                long_roomy eq_refl eq_refl Hk Hh) as Ew.
  split; [exact Hz |].
  exists (snd (Kernel.sys_write 1 4096 2147483648 long_roomy)).
  exists (firstn (Z.to_nat 2147479552) (repeat x61 (Z.to_nat 2147483648))).
  split; [exact (printf_unfolded long_fuel 4096 2147483648 [] long_roomy
                   Hz Hfuel) |].
  rewrite Ew. cbn [snd log files]. unfold stdout. cbn [files].
  split; [reflexivity |]. split.
  - unfold Kernel.append. rewrite Z.eqb_refl. reflexivity.
  - rewrite firstn_length_le by (rewrite repeat_length; lia). lia.
Qed.
